(** * examples/scripts/training.py: the benchmark training script

    A shallow embedding of the script that loads a benchmark data set,
    picks the encoder/decoder classes of that data set, resolves the model
    configuration, assembles the model and hands it to the training
    pipeline.

    The script is glue around the [numpy], [argparse], [torch] and [pythae]
    libraries.  Their entry points are the fields of a [World] record; the
    script itself is a program in a state-and-exception monad whose state
    holds the configuration objects and the sequence of calls made so far. *)

From Stdlib Require Import ZArith NArith QArith String Ascii List.
From stdpp Require Import gmap strings list fin_maps.

Close Scope Q_scope.
Open Scope string_scope.
Open Scope list_scope.

(** ** Python values and exceptions *)

Definition nl : string := String "010"%char EmptyString.

(** The values a configuration attribute can hold. *)
Inductive value :=
| VNone
| VBool (b : bool)
| VInt (z : Z)
| VFloat (q : Q)
| VStr (s : string)
| VTuple (l : list Z).

(** An exception instance: its class name, [str(e)] and [__cause__]. *)
#[warnings="-register-all"]
Inductive exn :=
| Exn (exc_type : string) (exc_msg : string) (exc_cause : option exn).

Definition exc_type (e : exn) : string := let 'Exn t _ _ := e in t.
Definition exc_msg (e : exn) : string := let 'Exn _ m _ := e in m.
Definition exc_cause (e : exn) : option exn := let 'Exn _ _ c := e in c.

(** The built-in classes that derive from [BaseException] but not from
    [Exception]; [except Exception] lets them through. *)
Definition not_Exception : list string :=
  ["BaseException"; "KeyboardInterrupt"; "SystemExit"; "GeneratorExit"].

Definition is_Exception (e : exn) : bool :=
  negb (existsb (String.eqb (exc_type e)) not_Exception).

(** [f"{type(e)}"] *)
Definition repr_type (e : exn) : string := "<class '" ++ exc_type e ++ "'>".

(** ** Arrays *)

Record ndarray (A : Type) := NdArray { shape : list Z; flat : list A }.
Arguments NdArray {A} _ _.
Arguments shape {A} _.
Arguments flat {A} _.

(** [arr / 255.]: true division of every element by the scalar.  The
    stored samples are integers; the quotients are kept as exact
    rationals. *)
Definition true_divide (arr : ndarray Z) (d : Q) : ndarray Q :=
  NdArray (shape arr) (map (fun x => (inject_Z x / d)%Q) (flat arr)).

Definition Qmin' (a b : Q) : Q := if Qle_bool a b then a else b.
Definition Qmax' (a b : Q) : Q := if Qle_bool a b then b else a.

(** [arr.min()] and [arr.max()]; numpy raises [ValueError] on an array
    without elements. *)
Definition zero_size (op : string) : exn :=
  Exn "ValueError"
      ("zero-size array to reduction operation " ++ op ++ " which has no identity")
      None.

Definition array_min (arr : ndarray Q) : exn + Q :=
  match flat arr with
  | [] => inl (zero_size "minimum")
  | x :: xs => inr (fold_left Qmin' xs x)
  end.

Definition array_max (arr : ndarray Q) : exn + Q :=
  match flat arr with
  | [] => inl (zero_size "maximum")
  | x :: xs => inr (fold_left Qmax' xs x)
  end.

(** An opened [.npz] archive: member name to array. *)
Abbreviation NpzFile := (gmap string (ndarray Z)).

(** [npz[key]] *)
Definition getitem (f : NpzFile) (key : string) : exn + ndarray Z :=
  match f !! key with
  | Some a => inr a
  | None => inl (Exn "KeyError" (key ++ " is not a file in the archive") None)
  end.

(** ** Paths (posixpath) *)

Definition sep : ascii := "/"%char.

Definition startswith_sep (p : string) : bool :=
  match p with
  | String c _ => Ascii.eqb c sep
  | EmptyString => false
  end.

Fixpoint endswith_sep (p : string) : bool :=
  match p with
  | EmptyString => false
  | String c EmptyString => Ascii.eqb c sep
  | String _ p' => endswith_sep p'
  end.

Definition join2 (path b : string) : string :=
  if startswith_sep b then b
  else if (String.eqb path EmptyString || endswith_sep path)%bool then path ++ b
  else path ++ String sep b.

(** [os.path.join(a, *p)] *)
Definition path_join (a : string) (p : list string) : string :=
  fold_left join2 p a.

(** [s.rstrip('/')] and [s[:s.rfind('/') + 1]], on the reversed
    characters. *)
Fixpoint lstrip_sep (l : list ascii) : list ascii :=
  match l with
  | c :: l' => if Ascii.eqb c sep then lstrip_sep l' else l
  | [] => []
  end.

Fixpoint from_first_sep (l : list ascii) : list ascii :=
  match l with
  | c :: l' => if Ascii.eqb c sep then l else from_first_sep l'
  | [] => []
  end.

(** [os.path.dirname(p)] *)
Definition dirname (p : string) : string :=
  let head := from_first_sep (rev (list_ascii_of_string p)) in
  let head' := if forallb (Ascii.eqb sep) head then head else lstrip_sep head in
  string_of_list_ascii (rev head').


(** ** Classes of the architecture library *)

Inductive nn_class :=
| Encoder_AE_MNIST | Encoder_VAE_MNIST | Decoder_AE_MNIST
| Encoder_AE_CIFAR | Encoder_VAE_CIFAR | Decoder_AE_CIFAR
| Encoder_AE_CELEBA | Encoder_VAE_CELEBA | Decoder_AE_CELEBA.

Inductive model_class := AE | VAE | WAE_MMD | VAMP | BetaVAE | HVAE | RHVAE.

Inductive config_class :=
| AEConfig | VAEConfig | WAE_MMD_Config | VAMPConfig | BetaVAEConfig
| HVAEConfig | RHVAEConfig.

(** A tensor registered as a parameter. *)
Record param := Param { numel : N; requires_grad : bool }.

(** An encoder or decoder instance, as far as the script looks into it. *)
Record module := Module { parameters : list param }.

Abbreviation config := (gmap string value).
Abbreviation loc := nat.

(** Modelled from the spec: the model classes of [pythae.models] are not
    part of the script.  The assembled model is the tuple (model family,
    configuration, encoder instance, decoder instance); a family with
    auxiliary modules registers their parameters next to those of the
    encoder and the decoder. *)
Record model := AssembledModel {
  model_family : model_class;
  model_config_ref : loc;
  encoder : module;
  decoder : module;
  auxiliary : list param
}.

(** [model.parameters()]: every registered parameter once, none shared. *)
Definition model_parameters (m : model) : list param :=
  parameters (encoder m) ++ parameters (decoder m) ++ auxiliary m.

(** [sum(p.numel() for p in ps if p.requires_grad)] *)
Definition num_param (ps : list param) : N :=
  fold_left N.add (map numel (filter (fun p => requires_grad p = true) ps)) 0%N.

(** ** The world outside the script *)

Record World := {
  (** [os.path.abspath(__file__)] *)
  script_abspath : string;
  (** [np.load(path)] *)
  np_load : string -> exn + NpzFile;
  (** [XConfig.from_json_file(path)] and [XConfig()] *)
  from_json_file : config_class -> string -> exn + config;
  default_config : config_class -> config;
  (** the encoder and decoder constructors *)
  nn_new : nn_class -> config -> exn + module;
  (** the model constructors: the parameters of the auxiliary modules *)
  model_new : model_class -> config -> module -> module -> exn + list param;
  (** [BaseTrainingConfig.from_json_file(path)] *)
  training_from_json_file : string -> exn + config;
  (** [TrainingPipeline(training_config=..., model=...)] and its call *)
  pipeline_new : config -> model -> exn + unit;
  pipeline_call : config -> model -> ndarray Q -> ndarray Q -> exn + unit
}.

(** [PATH = os.path.dirname(os.path.abspath(__file__))] *)
Definition PATH (w : World) : string := dirname (script_abspath w).

(** ** Command line *)

Record Args := {
  dataset : string;
  model_name : string;
  model_config : option string;
  training_config : string
}.

(** The four options declared with [ap.add_argument]. *)
Inductive option_string := opt_dataset | opt_model_name | opt_model_config
                         | opt_training_config.

Definition dataset_choices : list string := ["mnist"; "cifar10"; "celeba"].
Definition model_name_choices : list string :=
  ["ae"; "vae"; "beta_vae"; "wae"; "vamp"; "hvae"; "rhvae"].

(** [ap.error(...)]: usage message on stderr, then [sys.exit(2)]. *)
Definition usage_error : exn := Exn "SystemExit" "2" None.

Record Namespace := {
  ns_dataset : option string;
  ns_model_name : option string;
  ns_model_config : option string;
  ns_training_config : string
}.

(** The namespace before any argument is consumed: the declared defaults
    of the options that are not required. *)
Definition defaults (w : World) : Namespace :=
  {| ns_dataset := None;
     ns_model_name := None;
     ns_model_config := None;
     ns_training_config := path_join (PATH w) ["configs/base_training_config.json"] |}.

(** One occurrence of an option with its value; [choices] is checked when
    the value is consumed. *)
Definition consume (ns : Namespace) (o : option_string) (v : string)
  : exn + Namespace :=
  match o with
  | opt_dataset =>
      if existsb (String.eqb v) dataset_choices
      then inr {| ns_dataset := Some v; ns_model_name := ns_model_name ns;
                  ns_model_config := ns_model_config ns;
                  ns_training_config := ns_training_config ns |}
      else inl usage_error
  | opt_model_name =>
      if existsb (String.eqb v) model_name_choices
      then inr {| ns_dataset := ns_dataset ns; ns_model_name := Some v;
                  ns_model_config := ns_model_config ns;
                  ns_training_config := ns_training_config ns |}
      else inl usage_error
  | opt_model_config =>
      inr {| ns_dataset := ns_dataset ns; ns_model_name := ns_model_name ns;
             ns_model_config := Some v;
             ns_training_config := ns_training_config ns |}
  | opt_training_config =>
      inr {| ns_dataset := ns_dataset ns; ns_model_name := ns_model_name ns;
             ns_model_config := ns_model_config ns;
             ns_training_config := v |}
  end.

Fixpoint consume_all (ns : Namespace) (argv : list (option_string * string))
  : exn + Namespace :=
  match argv with
  | [] => inr ns
  | (o, v) :: argv' =>
      match consume ns o v with
      | inl e => inl e
      | inr ns' => consume_all ns' argv'
      end
  end.

(** [ap.parse_args()]: the options given on the command line, in order,
    then the check of the options declared [required=True]. *)
Definition parse_args (w : World) (argv : list (option_string * string))
  : exn + Args :=
  match consume_all (defaults w) argv with
  | inl e => inl e
  | inr ns =>
      match ns_dataset ns, ns_model_name ns with
      | Some d, Some m =>
          inr {| dataset := d; model_name := m;
                 model_config := ns_model_config ns;
                 training_config := ns_training_config ns |}
      | _, _ => inl usage_error
      end
  end.

(** ** What a run does: the calls that leave the script *)

Inductive log_record :=
| LogLoading (ds : string)
| LogLoaded
| LogRule
| LogDataHeader
| LogSplit (ds split : string) (sh : list Z) (lo hi : Q)
| LogBuilt (name : string)
| LogParamHeader
| LogParams (name : string) (enc dec total : N).

Inductive event :=
| EvLog (r : log_record)
| EvNpLoad (path : string)
| EvFromJsonFile (c : config_class) (path : string)
| EvDefaultConfig (c : config_class)
| EvSetAttr (r : loc) (attr : string) (v : value)
| EvNewModule (c : nn_class) (r : loc) (cfg : config)
| EvNewModel (c : model_class) (r : loc) (cfg : config) (enc dec : module)
| EvTrainingConfig (path : string)
| EvNewPipeline (tc : config) (m : model)
| EvPipelineCall (tc : config) (m : model) (train eval : ndarray Q).

(** ** The monad of the script *)

Record state := State { heap : gmap loc config; trace : list event }.

Definition M (A : Type) : Type := state -> state * (exn + A).

#[global] Instance M_ret : MRet M := fun A x s => (s, inr x).

#[global] Instance M_bind : MBind M := fun A B f m s =>
  match m s with
  | (s', inl e) => (s', inl e)
  | (s', inr x) => f x s'
  end.

#[global] Instance M_fmap : FMap M := fun A B f m s =>
  match m s with
  | (s', inl e) => (s', inl e)
  | (s', inr x) => (s', inr (f x))
  end.

Definition raise {A} (e : exn) : M A := fun s => (s, inl e).

(** The outcome of a call into a library. *)
Definition lift {A} (r : exn + A) : M A := fun s => (s, r).

Definition emit (ev : event) : M unit :=
  fun s => (State (heap s) (trace s ++ [ev]), inr tt).

Definition info (r : log_record) : M unit := emit (EvLog r).

(** A new object on the heap. *)
Definition new_object (c : config) : M loc :=
  fun s => let r := fresh (dom (heap s)) in
           (State (<[r := c]> (heap s)) (trace s), inr r).

Definition attributes (r : loc) : M config :=
  fun s => (s, inr (default ∅ (heap s !! r))).

(** [obj.attr = v] *)
Definition setattr (r : loc) (attr : string) (v : value) : M unit :=
  fun s => (State (alter (insert attr v) r (heap s))
                  (trace s ++ [EvSetAttr r attr v]), inr tt).

(** [try: body except Exception as e: handler] *)
Definition try_except {A} (body : M A) (handler : exn -> M A) : M A :=
  fun s =>
    match body s with
    | (s', inl e) => if is_Exception e then handler e s' else (s', inl e)
    | (s', inr x) => (s', inr x)
    end.

(** Reading a local name that no branch has bound. *)
Definition local {A} (name : string) (v : option A) : M A :=
  match v with
  | Some x => mret x
  | None =>
      raise (Exn "UnboundLocalError"
                 ("cannot access local variable '" ++ name
                  ++ "' where it is not associated with a value") None)
  end.

(** ** The script *)

Section Script.
Variable w : World.

(** The chain of conditional imports on [args.dataset]: the classes bound
    to the local names [Encoder_AE], [Encoder_VAE] and [Decoder_AE]; no
    branch is taken, and no name bound, for another data set. *)
Definition imports (dataset : string)
  : option nn_class * option nn_class * option nn_class :=
  if dataset =? "mnist" then
    (Some Encoder_AE_MNIST, Some Encoder_VAE_MNIST, Some Decoder_AE_MNIST)
  else if dataset =? "cifar10" then
    (Some Encoder_AE_CIFAR, Some Encoder_VAE_CIFAR, Some Decoder_AE_CIFAR)
  else if dataset =? "celeba" then
    (Some Encoder_AE_CELEBA, Some Encoder_VAE_CELEBA, Some Decoder_AE_CELEBA)
  else (None, None, None).

(** [os.path.join(PATH, f'data/{args.dataset}', name)] *)
Definition data_path (args : Args) (name : string) : string :=
  path_join (PATH w) [("data/" ++ dataset args)%string; name].

(** [np.load(os.path.join(PATH, f'data/{args.dataset}', name))['data']] *)
Definition stored (args : Args) (name : string) : exn + ndarray Z :=
  match np_load w (data_path args name) with
  | inl e => inl e
  | inr npz => getitem npz "data"
  end.

(** [np.load(...)['data'] / 255.] *)
Definition load_data (args : Args) (name : string) : M (ndarray Q) :=
  emit (EvNpLoad (data_path args name));;
  arr ← lift (stored args name);
  mret (true_divide arr 255).

(** The message of the error raised when the data cannot be loaded. *)
Definition load_error_message (args : Args) (e : exn) : string :=
  "Unable to load the data from 'data/" ++ dataset args
  ++ "' folder. Please check that both a "
  ++ "'train_data.npz' and 'eval_data.npz' are present in the folder."
  ++ nl ++ " Data must be "
  ++ " under the key 'data', in the range [0-255] and shaped with channel in first "
  ++ "position" ++ nl
  ++ "Exception raised: " ++ repr_type e ++ " with message: " ++ exc_msg e.

(** [Class(model_config)] for an encoder or decoder class held in a
    local name. *)
Definition call_nn (name : string) (cls : option nn_class) (model_config : loc)
  : M module :=
  c ← local name cls;
  cfg ← attributes model_config;
  emit (EvNewModule c model_config cfg);;
  lift (nn_new w c cfg).

(** One branch of the chain on [args.model_name]: the configuration of
    class [Config], read from the file when a path is given, its
    [input_dim] set, and the model of class [Model] around the encoder
    and the decoder built from it. *)
Definition build (args : Args) (data_input_dim : value)
    (Config : config_class) (Model : model_class)
    (Encoder Decoder : string * option nn_class) : M model :=
  model_config ←
    match model_config args with
    | Some path =>
        emit (EvFromJsonFile Config path);;
        c ← lift (from_json_file w Config path);
        new_object c
    | None =>
        emit (EvDefaultConfig Config);;
        new_object (default_config w Config)
    end;
  setattr model_config "input_dim" data_input_dim;;
  enc ← call_nn Encoder.1 Encoder.2 model_config;
  dec ← call_nn Decoder.1 Decoder.2 model_config;
  cfg ← attributes model_config;
  emit (EvNewModel Model model_config cfg enc dec);;
  aux ← lift (model_new w Model cfg enc dec);
  mret (AssembledModel Model model_config enc dec aux).

Definition main (args : Args) : M unit :=
  let '(Encoder_AE, Encoder_VAE, Decoder_AE) := imports (dataset args) in
  let Encoder_AE := ("Encoder_AE", Encoder_AE) in
  let Encoder_VAE := ("Encoder_VAE", Encoder_VAE) in
  let Decoder_AE := ("Decoder_AE", Decoder_AE) in
  '(train_data, eval_data) ←
    try_except
      (info (LogLoading (dataset args));;
       train_data ← load_data args "train_data.npz";
       eval_data ← load_data args "eval_data.npz";
       mret (train_data, eval_data))
      (fun e =>
         raise (Exn "FileNotFoundError" (load_error_message args e) (Some e)));
  info LogLoaded;;
  info LogRule;;
  info LogDataHeader;;
  lo ← lift (array_min train_data);
  hi ← lift (array_max train_data);
  info (LogSplit (dataset args) "train" (shape train_data) lo hi);;
  lo ← lift (array_min eval_data);
  hi ← lift (array_max eval_data);
  info (LogSplit (dataset args) "eval" (shape eval_data) lo hi);;
  info LogRule;;
  let data_input_dim := VTuple (tail (shape train_data)) in
  model ←
    (if model_name args =? "ae" then
       Some <$> build args data_input_dim AEConfig AE Encoder_AE Decoder_AE
     else if model_name args =? "vae" then
       Some <$> build args data_input_dim VAEConfig VAE Encoder_VAE Decoder_AE
     else if model_name args =? "wae" then
       Some <$> build args data_input_dim WAE_MMD_Config WAE_MMD Encoder_AE Decoder_AE
     else if model_name args =? "vamp" then
       Some <$> build args data_input_dim VAMPConfig VAMP Encoder_VAE Decoder_AE
     else if model_name args =? "beta_vae" then
       Some <$> build args data_input_dim BetaVAEConfig BetaVAE Encoder_VAE Decoder_AE
     else if model_name args =? "hvae" then
       Some <$> build args data_input_dim HVAEConfig HVAE Encoder_VAE Decoder_AE
     else if model_name args =? "rhvae" then
       Some <$> build args data_input_dim RHVAEConfig RHVAE Encoder_VAE Decoder_AE
     else mret None);
  info (LogBuilt (model_name args));;
  model ← local "model" model;
  let encoder_num_param := num_param (parameters (encoder model)) in
  let decoder_num_param := num_param (parameters (decoder model)) in
  let total_num_param := num_param (model_parameters model) in
  info LogRule;;
  info LogParamHeader;;
  info (LogParams (model_name args) encoder_num_param decoder_num_param
                  total_num_param);;
  info LogRule;;
  emit (EvTrainingConfig (training_config args));;
  training_config ← lift (training_from_json_file w (training_config args));
  emit (EvNewPipeline training_config model);;
  lift (pipeline_new w training_config model);;
  emit (EvPipelineCall training_config model train_data eval_data);;
  lift (pipeline_call w training_config model train_data eval_data).

(** The module body: [args = ap.parse_args()], then [main(args)]. *)
Definition script (argv : list (option_string * string)) : M unit :=
  args ← lift (parse_args w argv);
  main args.

End Script.

Definition init : state := State ∅ [].

(** A run of the script from the command line, and of [main] alone. *)
Definition run (w : World) (argv : list (option_string * string))
  : state * (exn + unit) := script w argv init.

Definition run_main (w : World) (args : Args) : state * (exn + unit) :=
  main w args init.

Definition events (w : World) (argv : list (option_string * string))
  : list event := trace (run w argv).1.

Definition outcome (w : World) (argv : list (option_string * string))
  : exn + unit := (run w argv).2.

(** [tuple(train_data.shape[1:])] for the stored train array. *)
Definition dataset_shape (train : ndarray Z) : value := VTuple (tail (shape train)).

(** ** The tables of the specification *)

(** The two compatibility classes of the model families. *)
Inductive compat_class := AE_style | VAE_style.

(** A model family: its configuration schema, its model class and its
    compatibility class. *)
Record family := Family {
  schema : config_class;
  constructor : model_class;
  compat : compat_class
}.

Definition family_table : list (string * family) :=
  [("ae", Family AEConfig AE AE_style);
   ("vae", Family VAEConfig VAE VAE_style);
   ("beta_vae", Family BetaVAEConfig BetaVAE VAE_style);
   ("wae", Family WAE_MMD_Config WAE_MMD AE_style);
   ("vamp", Family VAMPConfig VAMP VAE_style);
   ("hvae", Family HVAEConfig HVAE VAE_style);
   ("rhvae", Family RHVAEConfig RHVAE VAE_style)].

(** The architecture registry: per data set family the autoencoding
    encoder, the variational encoder and the shared decoder. *)
Record entry := Entry {
  autoencoding_encoder : nn_class;
  variational_encoder : nn_class;
  shared_decoder : nn_class
}.

Definition registry : list (string * entry) :=
  [("mnist", Entry Encoder_AE_MNIST Encoder_VAE_MNIST Decoder_AE_MNIST);
   ("cifar10", Entry Encoder_AE_CIFAR Encoder_VAE_CIFAR Decoder_AE_CIFAR);
   ("celeba", Entry Encoder_AE_CELEBA Encoder_VAE_CELEBA Decoder_AE_CELEBA)].

Fixpoint table_lookup {A} (key : string) (table : list (string * A)) : option A :=
  match table with
  | [] => None
  | (k, x) :: table' => if key =? k then Some x else table_lookup key table'
  end.

(** The selection rule: the encoder of the family's compatibility class. *)
Definition selected_encoder (e : entry) (k : compat_class) : nn_class :=
  match k with
  | AE_style => autoencoding_encoder e
  | VAE_style => variational_encoder e
  end.

(** ** What the calls of a run carry *)

Section Facts.
Variable w : World.
Variable args : Args.

(** The configuration before [input_dim] is set: loaded from the file
    when a path is given, default-constructed otherwise. *)
Definition resolved (Config : config_class) (base : config) : Prop :=
  match model_config args with
  | Some path => from_json_file w Config path = inr base
  | None => base = default_config w Config
  end.

(** The configuration object of the run and its attributes once
    [input_dim] is set. *)
Definition config_fact (r : loc) (cfg : config) : Prop :=
  r = 0%nat /\
  exists train fam base,
    stored w args "train_data.npz" = inr train /\
    table_lookup (model_name args) family_table = Some fam /\
    resolved (schema fam) base /\
    cfg = <["input_dim" := dataset_shape train]> base.

(** The arguments of the model constructor. *)
Definition model_fact (Model : model_class) (r : loc) (cfg : config)
    (enc dec : module) : Prop :=
  config_fact r cfg /\
  exists fam Encoder_AE Encoder_VAE Decoder_AE Encoder,
    table_lookup (model_name args) family_table = Some fam /\
    Model = constructor fam /\
    imports (dataset args) = (Encoder_AE, Encoder_VAE, Some Decoder_AE) /\
    match compat fam with
    | AE_style => Encoder_AE
    | VAE_style => Encoder_VAE
    end = Some Encoder /\
    nn_new w Encoder cfg = inr enc /\
    nn_new w Decoder_AE cfg = inr dec.

(** The model the script holds once the constructor has returned. *)
Definition assembled (m : model) : Prop :=
  exists cfg,
    model_fact (model_family m) (model_config_ref m) cfg (encoder m) (decoder m) /\
    model_new w (model_family m) cfg (encoder m) (decoder m)
    = inr (auxiliary m).

(** The two arrays the script holds once the data is loaded. *)
Definition data_fact (train_data eval_data : ndarray Q) : Prop :=
  exists train eval,
    stored w args "train_data.npz" = inr train /\
    stored w args "eval_data.npz" = inr eval /\
    train_data = true_divide train 255 /\
    eval_data = true_divide eval 255.

Definition log_fact (r : log_record) : Prop :=
  match r with
  | LogSplit ds split sh lo hi =>
      ds = dataset args /\
      exists raw,
        stored w args (split ++ "_data.npz") = inr raw /\
        sh = shape raw /\
        array_min (true_divide raw 255) = inr lo /\
        array_max (true_divide raw 255) = inr hi
  | LogParams name enc dec total =>
      exists m,
        assembled m /\
        enc = num_param (parameters (encoder m)) /\
        dec = num_param (parameters (decoder m)) /\
        total = num_param (model_parameters m)
  | _ => True
  end.

Definition event_fact (ev : event) : Prop :=
  match ev with
  | EvLog r => log_fact r
  | EvNpLoad path =>
      path = data_path w args "train_data.npz" \/
      path = data_path w args "eval_data.npz"
  | EvFromJsonFile c path =>
      model_config args = Some path /\
      exists fam, table_lookup (model_name args) family_table = Some fam /\
                  c = schema fam
  | EvDefaultConfig c =>
      model_config args = None /\
      exists fam, table_lookup (model_name args) family_table = Some fam /\
                  c = schema fam
  | EvSetAttr r attr v =>
      r = 0%nat /\ attr = "input_dim" /\
      exists train, stored w args "train_data.npz" = inr train /\
                    v = dataset_shape train
  | EvNewModule c r cfg => config_fact r cfg
  | EvNewModel c r cfg enc dec => model_fact c r cfg enc dec
  | EvTrainingConfig path =>
      path = training_config args /\ exists m, assembled m
  | EvNewPipeline tc m =>
      assembled m /\
      training_from_json_file w (training_config args) = inr tc
  | EvPipelineCall tc m train_data eval_data =>
      assembled m /\
      training_from_json_file w (training_config args) = inr tc /\
      pipeline_new w tc m = inr tt /\
      data_fact train_data eval_data
  end.

End Facts.

(** The configuration argument of a constructor call. *)
Definition config_passed (ev : event) : option (loc * config) :=
  match ev with
  | EvNewModule _ r cfg | EvNewModel _ r cfg _ _ => Some (r, cfg)
  | _ => None
  end.

(** ** A small world for the examples *)

Module Demo.

Definition file : string := "/home/user/benchmark_VAE/examples/scripts/training.py".
Definition here : string := "/home/user/benchmark_VAE/examples/scripts".

(** Two 1x2x2 train samples and one eval sample of another shape, with
    values below 0 and above 255. *)
Definition train : ndarray Z := NdArray [2; 1; 2; 2]%Z [0; 255; 128; 3; 4; 5; 6; 7]%Z.
Definition eval : ndarray Z := NdArray [1; 3; 1; 1]%Z [510; -5; 51]%Z.

Definition files (p : string) : exn + NpzFile :=
  if p =? here ++ "/data/mnist/train_data.npz" then inr {[ "data" := train ]}
  else if p =? here ++ "/data/mnist/eval_data.npz" then inr {[ "data" := eval ]}
  else if p =? here ++ "/data/celeba/train_data.npz" then inr {[ "images" := train ]}
  else inl (Exn "FileNotFoundError"
                ("[Errno 2] No such file or directory: '" ++ p ++ "'") None).

(** A configuration file that gives its own [input_dim]. *)
Definition json (c : config_class) (p : string) : exn + config :=
  if p =? "my_config.json"
  then inr {[ "input_dim" := VTuple [3; 32; 32]%Z; "latent_dim" := VInt 16 ]}
  else inl (Exn "FileNotFoundError" p None).

Definition new (c : nn_class) (cfg : config) : exn + module :=
  match c with
  | Encoder_AE_MNIST | Encoder_AE_CIFAR | Encoder_AE_CELEBA =>
      inr (Module [Param 400 true; Param 16 true])
  | Encoder_VAE_MNIST | Encoder_VAE_CIFAR | Encoder_VAE_CELEBA =>
      inr (Module [Param 400 true; Param 16 true; Param 16 true])
  | _ => inr (Module [Param 16 true; Param 400 true; Param 4 false])
  end.

(** The Riemannian family learns a metric next to its encoder and
    decoder. *)
Definition aux (c : model_class) (cfg : config) (e d : module)
  : exn + list param :=
  match c with
  | RHVAE => inr [Param 100 true; Param 1 false]
  | _ => inr []
  end.

Definition training (p : string) : exn + config :=
  if p =? here ++ "/configs/base_training_config.json"
  then inr {[ "batch_size" := VInt 100; "max_epochs" := VInt 100 ]}
  else inl (Exn "JSONDecodeError" "Expecting value: line 1 column 1 (char 0)" None).

Definition world : World :=
  {| script_abspath := file;
     np_load := files;
     from_json_file := json;
     default_config := fun _ => {[ "input_dim" := VNone; "latent_dim" := VInt 10 ]};
     nn_new := new;
     model_new := aux;
     training_from_json_file := training;
     pipeline_new := fun _ _ => inr tt;
     pipeline_call := fun _ _ _ _ => inr tt |}.

End Demo.

(** A property of the final state and outcome of a computation. *)
Definition post {A} (Φ : state -> exn + A -> Prop) (x : state * (exn + A)) : Prop :=
  Φ x.1 x.2.

(** Command lines and the calls they lead to in the demo world. *)
Module DemoRuns.

Definition rhvae_with_file : list (option_string * string) :=
  [(opt_dataset, "mnist"); (opt_model_name, "rhvae");
   (opt_model_config, "my_config.json")].

(** The attributes of the configuration once resolved: the file said
    [(3, 32, 32)], the train array is [(2, 1, 2, 2)]. *)
Definition resolved_config : config :=
  {[ "input_dim" := VTuple [1; 2; 2]%Z; "latent_dim" := VInt 16 ]}.

End DemoRuns.

Module DemoWae.

Definition argv : list (option_string * string) :=
  [(opt_model_name, "wae"); (opt_dataset, "mnist")].

(** The default configuration with [input_dim] set. *)
Definition cfg : config :=
  {[ "input_dim" := VTuple [1; 2; 2]%Z; "latent_dim" := VInt 10 ]}.

Definition enc : module := Module [Param 400 true; Param 16 true].
Definition dec : module := Module [Param 16 true; Param 400 true; Param 4 false].

End DemoWae.

(** The elementwise quotient of a stored sample. *)
Definition normalized (x : Z) : Q := (inject_Z x / 255)%Q.

Module DemoVae.

Definition argv : list (option_string * string) :=
  [(opt_dataset, "mnist"); (opt_model_name, "vae")].

Definition args : Args :=
  {| dataset := "mnist"; model_name := "vae"; model_config := None;
     training_config := Demo.here ++ "/configs/base_training_config.json" |}.

Definition cfg : config :=
  {[ "input_dim" := VTuple [1; 2; 2]%Z; "latent_dim" := VInt 10 ]}.

Definition tc : config :=
  {[ "batch_size" := VInt 100; "max_epochs" := VInt 100 ]}.

Definition enc : module := Module [Param 400 true; Param 16 true; Param 16 true].
Definition dec : module := Module [Param 16 true; Param 400 true; Param 4 false].

Definition vae : model := AssembledModel VAE 0 enc dec [].

Definition train_data : ndarray Q :=
  NdArray [2; 1; 2; 2]%Z
          [0 # 255; 255 # 255; 128 # 255; 3 # 255; 4 # 255; 5 # 255; 6 # 255;
           7 # 255]%Q.

(** Out-of-range samples stay out of range: 510 becomes 2, -5 becomes
    -5/255. *)
Definition eval_data : ndarray Q :=
  NdArray [1; 3; 1; 1]%Z [510 # 255; (-5) # 255; 51 # 255]%Q.

End DemoVae.

(** [sub in s] *)
Definition contains (sub s : string) : Prop :=
  exists pre suf, s = (pre ++ sub ++ suf)%string.

(** The calls that construct an encoder, a decoder or a model. *)
Definition is_constructor_call (ev : event) : bool :=
  match ev with
  | EvNewModule _ _ _ | EvNewModel _ _ _ _ _ => true
  | _ => false
  end.

Module DemoCifar.

(** There is no [data/cifar10] folder in the demo world. *)
Definition argv : list (option_string * string) :=
  [(opt_dataset, "cifar10"); (opt_model_name, "vae")].

Definition args : Args :=
  {| dataset := "cifar10"; model_name := "vae"; model_config := None;
     training_config := Demo.here ++ "/configs/base_training_config.json" |}.

Definition missing : exn :=
  Exn "FileNotFoundError"
      ("[Errno 2] No such file or directory: '" ++ Demo.here
       ++ "/data/cifar10/train_data.npz'") None.

End DemoCifar.

Module DemoSvhn.

Definition argv : list (option_string * string) :=
  [(opt_dataset, "svhn"); (opt_model_name, "vae")].

(** [main] called with a namespace that did not go through the parser. *)
Definition args : Args :=
  {| dataset := "svhn"; model_name := "vae"; model_config := None;
     training_config := Demo.here ++ "/configs/base_training_config.json" |}.

End DemoSvhn.

(** ** Changing the shape of the stored eval array *)

(** The same elements under another shape. *)
Definition reshape {A} (sh : list Z) (arr : ndarray A) : ndarray A :=
  NdArray sh (flat arr).

(** The world in which the array stored under ['data'] in the file [path]
    has the shape [sh], and nothing else differs. *)
Definition with_shape (path : string) (sh : list Z) (w : World) : World :=
  {| script_abspath := script_abspath w;
     np_load := fun p =>
       match np_load w p with
       | inl e => inl e
       | inr npz => inr (if p =? path then alter (reshape sh) "data" npz else npz)
       end;
     from_json_file := from_json_file w;
     default_config := default_config w;
     nn_new := nn_new w;
     model_new := model_new w;
     training_from_json_file := training_from_json_file w;
     pipeline_new := pipeline_new w;
     pipeline_call := pipeline_call w |}.

(** A call without the shape of the eval array: the shape is printed in the
    summary of the eval split and travels with the array to the training
    pipeline, and appears nowhere else. *)
Definition forget_eval_shape (ev : event) : event :=
  match ev with
  | EvLog (LogSplit ds split sh lo hi) =>
      if split =? "eval" then EvLog (LogSplit ds split [] lo hi) else ev
  | EvPipelineCall tc m train_data eval_data =>
      EvPipelineCall tc m train_data (reshape [] eval_data)
  | _ => ev
  end.

#[global] Instance option_string_eq_dec : EqDecision option_string.
Proof. solve_decision. Defined.

(** The value of the last occurrence of an option on the command line. *)
Fixpoint given (o : option_string) (argv : list (option_string * string))
  : option string :=
  match argv with
  | [] => None
  | (o', v) :: argv' =>
      match given o argv' with
      | Some v' => Some v'
      | None => if decide (o' = o) then Some v else None
      end
  end.

Module DemoRhvae.

Definition argv : list (option_string * string) :=
  [(opt_dataset, "mnist"); (opt_model_name, "rhvae")].


End DemoRhvae.

(** ** The order of the calls *)

Definition is_new_model (ev : event) : bool :=
  match ev with EvNewModel _ _ _ _ _ => true | _ => false end.



Definition is_pipeline_call (ev : event) : bool :=
  match ev with
  | EvNewPipeline _ _ | EvPipelineCall _ _ _ _ => true
  | _ => false
  end.


Module DemoBroken.

(** A training configuration file that is not JSON. *)
Definition argv : list (option_string * string) :=
  [(opt_dataset, "mnist"); (opt_model_name, "vae");
   (opt_training_config, "broken.json")].

Definition args : Args :=
  {| dataset := "mnist"; model_name := "vae"; model_config := None;
     training_config := "broken.json" |}.

Definition error : exn :=
  Exn "JSONDecodeError" "Expecting value: line 1 column 1 (char 0)" None.

End DemoBroken.

(** ** The command line as a whole *)



Module DemoNoDataset.

(** [--dataset] is left to its declared default. *)
Definition argv : list (option_string * string) :=
  [(opt_model_name, "vae"); (opt_model_config, "my_config.json")].

End DemoNoDataset.

Module DemoGan.

Definition argv : list (option_string * string) :=
  [(opt_dataset, "mnist"); (opt_model_name, "gan"); (opt_model_name, "vae")].

End DemoGan.

(** The calls that go beyond loading the data and logging. *)
Definition beyond_loading (ev : event) : bool :=
  match ev with
  | EvLog _ | EvNpLoad _ => false
  | _ => true
  end.

(** The local name a branch reads for its encoder class. *)
Definition encoder_name (k : compat_class) : string :=
  match k with
  | AE_style => "'Encoder_AE'"
  | VAE_style => "'Encoder_VAE'"
  end.

Module DemoDirect.

(** Namespaces handed to [main] without going through the parser. *)
Definition gan : Args :=
  {| dataset := "mnist"; model_name := "gan"; model_config := None;
     training_config := "training.json" |}.

Definition svhn : Args :=
  {| dataset := "svhn"; model_name := "wae"; model_config := None;
     training_config := "training.json" |}.

(** The demo world with a [data/svhn] folder next to the others. *)
Definition world : World :=
  {| script_abspath := Demo.file;
     np_load := fun p =>
       if p =? Demo.here ++ "/data/svhn/train_data.npz"
       then inr {[ "data" := Demo.train ]}
       else if p =? Demo.here ++ "/data/svhn/eval_data.npz"
       then inr {[ "data" := Demo.eval ]}
       else Demo.files p;
     from_json_file := Demo.json;
     default_config := default_config Demo.world;
     nn_new := Demo.new;
     model_new := Demo.aux;
     training_from_json_file := Demo.training;
     pipeline_new := fun _ _ => inr tt;
     pipeline_call := fun _ _ _ _ => inr tt |}.

End DemoDirect.

Module DemoEmpty.

(** A world whose [mnist] eval file holds an array without samples. *)
Definition empty : ndarray Z := NdArray [0; 1; 2; 2]%Z [].

Definition world : World :=
  {| script_abspath := Demo.file;
     np_load := fun p =>
       if p =? Demo.here ++ "/data/mnist/eval_data.npz"
       then inr {[ "data" := empty ]}
       else Demo.files p;
     from_json_file := Demo.json;
     default_config := default_config Demo.world;
     nn_new := Demo.new;
     model_new := Demo.aux;
     training_from_json_file := Demo.training;
     pipeline_new := fun _ _ => inr tt;
     pipeline_call := fun _ _ _ _ => inr tt |}.

End DemoEmpty.

Module DemoInterrupt.

(** A world in which the user interrupts the load of the train file. *)
Definition interrupt : exn := Exn "KeyboardInterrupt" EmptyString None.

Definition world : World :=
  {| script_abspath := Demo.file;
     np_load := fun p => inl interrupt;
     from_json_file := Demo.json;
     default_config := default_config Demo.world;
     nn_new := Demo.new;
     model_new := Demo.aux;
     training_from_json_file := Demo.training;
     pipeline_new := fun _ _ => inr tt;
     pipeline_call := fun _ _ _ _ => inr tt |}.

End DemoInterrupt.

(** ** Failing calls *)

Definition error_of {A} (r : exn + A) : option exn :=
  match r with
  | inl e => Some e
  | inr _ => None
  end.

(** The exception with which the call recorded by an event fails, if it
    fails.  The loads are left out: their errors are handled by [main]. *)
Definition failure (w : World) (ev : event) : option exn :=
  match ev with
  | EvFromJsonFile c path => error_of (from_json_file w c path)
  | EvNewModule c _ cfg => error_of (nn_new w c cfg)
  | EvNewModel c _ cfg enc dec => error_of (model_new w c cfg enc dec)
  | EvTrainingConfig path => error_of (training_from_json_file w path)
  | EvNewPipeline tc m => error_of (pipeline_new w tc m)
  | EvPipelineCall tc m train_data eval_data =>
      error_of (pipeline_call w tc m train_data eval_data)
  | _ => None
  end.

(** The first failing call of a sequence is its last call and gives the
    outcome. *)
Fixpoint stops_at_failure (w : World) (t : list event) (r : exn + unit) : Prop :=
  match t with
  | [] => True
  | ev :: t' =>
      match failure w ev with
      | Some e => t' = [] /\ r = inl e
      | None => stops_at_failure w t' r
      end
  end.

(** What the outcome of a run has to do with the call recorded by an
    event. *)
Definition returns_from (w : World) (r : exn + unit) (ev : event) : Prop :=
  match ev with
  | EvPipelineCall tc m train_data eval_data =>
      r = pipeline_call w tc m train_data eval_data
  | _ => True
  end.

Module DemoFailing.

(** The demo world with a decoder that rejects its configuration. *)
Definition rejected : exn :=
  Exn "ValueError" "latent_dim must be positive" None.

Definition world : World :=
  {| script_abspath := Demo.file;
     np_load := Demo.files;
     from_json_file := Demo.json;
     default_config := default_config Demo.world;
     nn_new := fun c cfg =>
       match c with
       | Decoder_AE_MNIST => inl rejected
       | _ => Demo.new c cfg
       end;
     model_new := Demo.aux;
     training_from_json_file := Demo.training;
     pipeline_new := fun _ _ => inr tt;
     pipeline_call := fun _ _ _ _ => inr tt |}.

Definition before : list event :=
  [EvLog (LogLoading "mnist");
   EvNpLoad (Demo.here ++ "/data/mnist/train_data.npz");
   EvNpLoad (Demo.here ++ "/data/mnist/eval_data.npz");
   EvLog LogLoaded; EvLog LogRule; EvLog LogDataHeader;
   EvLog (LogSplit "mnist" "train" [2; 1; 2; 2]%Z (0 # 255) (255 # 255));
   EvLog (LogSplit "mnist" "eval" [1; 3; 1; 1]%Z ((-5) # 255) (510 # 255));
   EvLog LogRule; EvDefaultConfig VAEConfig;
   EvSetAttr 0 "input_dim" (VTuple [1; 2; 2]%Z);
   EvNewModule Encoder_VAE_MNIST 0 DemoVae.cfg].

End DemoFailing.

Module DemoSuccess.

(** The pieces of the run of the demo world on [mnist] and [vae]. *)
Definition fam : family := Family VAEConfig VAE VAE_style.
Definition mnist : entry :=
  Entry Encoder_AE_MNIST Encoder_VAE_MNIST Decoder_AE_MNIST.
Definition base : config := default_config Demo.world VAEConfig.
Definition lo : Q := 0 # 255.
Definition hi : Q := 255 # 255.
Definition lo' : Q := (-5) # 255.
Definition hi' : Q := 510 # 255.
Definition aux : list param := [].

End DemoSuccess.

Module DemoCeleba.

(** The train file of [celeba] in the demo world stores its array under
    the key ['images']. *)
Definition argv : list (option_string * string) :=
  [(opt_dataset, "celeba"); (opt_model_name, "ae")].

Definition args : Args :=
  {| dataset := "celeba"; model_name := "ae"; model_config := None;
     training_config := Demo.here ++ "/configs/base_training_config.json" |}.

Definition npz : NpzFile := {[ "images" := Demo.train ]}.

End DemoCeleba.

(** * Proofs *)

(** ** Reasoning about runs *)

Lemma deref_insert (h : gmap loc config) (r : loc) (c : config) :
  default ∅ (<[r := c]> h !! r) = c.
Proof. by rewrite lookup_insert_eq. Qed.

Lemma alter_fresh (h : gmap loc config) (c : config) (k : string) (v : value) :
  alter (insert k v) (fresh (dom h)) (<[fresh (dom h) := c]> h)
  = <[fresh (dom h) := <[k := v]> c]> h.
Proof. by rewrite alter_insert_eq. Qed.

Lemma first_loc : fresh (dom (∅ : gmap loc config)) = 0%nat.
Proof. reflexivity. Qed.

Ltac unfold_script :=
  unfold main, build, load_data, call_nn;
  unfold info, local, try_except, new_object, attributes, setattr, emit, lift,
    raise;
  unfold mbind, mret, fmap, M_bind, M_ret, M_fmap.

(** The scrutinee on which the evaluation of a term is waiting. *)
Ltac stuck t :=
  lazymatch t with
  | match ?x with _ => _ end => stuck x
  | (match ?x with _ => _ end) _ => stuck x
  | _ => t
  end.

Ltac exec_step :=
  lazymatch goal with
  | |- post _ ?t =>
      let x := stuck t in
      lazymatch x with
      | (_, _) => fail
      | _ => destruct x eqn:?
      end
  end.

Ltac exec :=
  repeat first
    [ progress cbn beta iota delta [heap trace app fst snd]
    | rewrite alter_fresh
    | rewrite deref_insert
    | exec_step ];
  unfold post; cbn beta iota delta [fst snd heap trace].

Ltac name_eq :=
  repeat match goal with
         | H : (_ =? _) = true |- _ => apply String.eqb_eq in H
         | H : (_ =? _) = false |- _ => clear H
         end.

Ltac use_eqs :=
  repeat match goal with
         | H : model_name _ = _ |- _ => rewrite H
         | H : model_config _ = _ |- _ => rewrite H
         end.

(** Closes a fact about one call from the equations met on the way. *)
Ltac fact :=
  cbn [event_fact log_fact];
  unfold assembled, model_fact, config_fact, data_fact, resolved;
  cbn [model_family model_config_ref encoder decoder auxiliary];
  use_eqs;
  repeat first
    [ eassumption
    | reflexivity
    | match goal with u : unit |- _ => destruct u end
    | split
    | lazymatch goal with
      | |- exists m : model, _ =>
          match goal with
          | H : model_new _ ?c _ ?e ?d = inr ?a |- _ =>
              exists (AssembledModel c 0%nat e d a)
          end
      end
    | eexists
    | left; reflexivity
    | right; reflexivity ].

(** Every call of [main] carries what [event_fact] says, and the only
    object on the heap is the resolved configuration. *)
Lemma main_events (w : World) (args : Args) :
  post (fun s _ => Forall (event_fact w args) (trace s)
                   /\ map_Forall (config_fact w args) (heap s))
       (main w args init).
Proof.
  unfold_script. unfold init.
  exec.
  all: rewrite ?first_loc; name_eq.
  all: split;
    [ repeat first [apply List.Forall_cons | apply List.Forall_nil]
    | first [ apply map_Forall_empty
            | apply map_Forall_insert_2; [| apply map_Forall_empty] ] ].
  all: solve [fact].
Qed.

(** ** The command line *)

Lemma run_unfold (w : World) (argv : list (option_string * string)) :
  run w argv = match parse_args w argv with
               | inl e => (init, inl e)
               | inr args => main w args init
               end.
Proof. unfold run, script, lift, mbind, M_bind. by destruct (parse_args w argv). Qed.

Lemma consume_all_choices (argv : list (option_string * string)) :
  forall ns ns',
    consume_all ns argv = inr ns' ->
    (forall d, ns_dataset ns = Some d -> In d dataset_choices) ->
    (forall m, ns_model_name ns = Some m -> In m model_name_choices) ->
    (forall d, ns_dataset ns' = Some d -> In d dataset_choices)
    /\ (forall m, ns_model_name ns' = Some m -> In m model_name_choices).
Proof.
  induction argv as [|[o v] argv IH]; intros ns ns' Hrun Hd Hm.
  - by injection Hrun as <-.
  - cbn [consume_all] in Hrun.
    destruct (consume ns o v) as [e|ns1] eqn:Hstep; [discriminate|].
    apply (IH _ _ Hrun); destruct o; cbn [consume] in Hstep.
    all: try (destruct (existsb _ _) eqn:Hin; [|discriminate]).
    all: injection Hstep as <-; cbn; auto.
    + intros d [= <-]. apply existsb_exists in Hin as (x & Hx & ->%String.eqb_eq).
      exact Hx.
    + intros m [= <-]. apply existsb_exists in Hin as (x & Hx & ->%String.eqb_eq).
      exact Hx.
Qed.

(** The parser only lets the declared choices through. *)
Lemma parse_args_choices (w : World) (argv : list (option_string * string))
    (args : Args) :
  parse_args w argv = inr args ->
  In (dataset args) dataset_choices /\ In (model_name args) model_name_choices.
Proof.
  unfold parse_args. intros H.
  destruct (consume_all (defaults w) argv) as [e|ns] eqn:Hns; [discriminate|].
  destruct (consume_all_choices _ _ _ Hns) as [Hd Hm];
    [cbn; discriminate | cbn; discriminate |].
  destruct (ns_dataset ns) as [d|]; [|discriminate].
  destruct (ns_model_name ns) as [m|]; [|discriminate].
  injection H as <-. split; [apply Hd | apply Hm]; reflexivity.
Qed.

Lemma run_events (w : World) (argv : list (option_string * string)) (args : Args) :
  parse_args w argv = inr args ->
  Forall (event_fact w args) (events w argv)
  /\ map_Forall (config_fact w args) (heap (run w argv).1).
Proof.
  intros H. unfold events. rewrite run_unfold, H. apply (main_events w args).
Qed.

Lemma run_rejected (w : World) (argv : list (option_string * string)) (e : exn) :
  parse_args w argv = inl e -> run w argv = (init, inl e).
Proof. intros H. by rewrite run_unfold, H. Qed.

(** A call can only be seen in a run whose command line was accepted. *)
Lemma event_parsed (w : World) (argv : list (option_string * string)) (ev : event) :
  ev ∈ events w argv ->
  exists args, parse_args w argv = inr args /\ event_fact w args ev.
Proof.
  intros Hin. destruct (parse_args w argv) as [e|args] eqn:Hp.
  - unfold events in Hin. rewrite (run_rejected _ _ _ Hp) in Hin.
    by apply elem_of_nil in Hin.
  - exists args. split; [done|].
    destruct (run_events _ _ _ Hp) as [Hall _].
    rewrite List.Forall_forall in Hall. apply Hall. by apply list_elem_of_In.
Qed.

(** ** The resolved configuration *)

Lemma config_fact_input_dim (w : World) (args : Args) (r : loc) (cfg : config) :
  config_fact w args r cfg ->
  exists train fam base,
    stored w args "train_data.npz" = inr train /\
    table_lookup (model_name args) family_table = Some fam /\
    resolved w args (schema fam) base /\
    cfg !! "input_dim" = Some (dataset_shape train) /\
    (forall k, k <> "input_dim" -> cfg !! k = base !! k).
Proof.
  intros (_ & train & fam & base & Htrain & Hfam & Hbase & ->).
  exists train, fam, base. repeat split; try done.
  - apply lookup_insert_eq.
  - intros k Hk. by apply lookup_insert_ne.
Qed.

(** C1: in every run, for every model family and whether the configuration
    was default-constructed or loaded from a file, the configuration handed
    to the encoder, decoder and model constructors, and the configuration
    object left on the heap, have [input_dim] equal to
    [tuple(train_data.shape[1:])]; every other attribute is the one of the
    default or loaded configuration, whatever [input_dim] that one had. *)
Theorem input_dim_is_dataset_shape (w : World)
    (argv : list (option_string * string)) :
  (forall ev r cfg,
      ev ∈ events w argv -> config_passed ev = Some (r, cfg) ->
      exists args train fam base,
        parse_args w argv = inr args /\
        stored w args "train_data.npz" = inr train /\
        table_lookup (model_name args) family_table = Some fam /\
        resolved w args (schema fam) base /\
        cfg !! "input_dim" = Some (VTuple (tail (shape train))) /\
        (forall k, k <> "input_dim" -> cfg !! k = base !! k))
  /\ (forall r cfg,
      heap (run w argv).1 !! r = Some cfg ->
      exists args train,
        parse_args w argv = inr args /\
        stored w args "train_data.npz" = inr train /\
        cfg !! "input_dim" = Some (VTuple (tail (shape train)))).
Proof.
  split.
  - intros ev r cfg Hin Hcfg.
    destruct (event_parsed _ _ _ Hin) as (args & Hp & Hev).
    assert (config_fact w args r cfg) as Hfact.
    { destruct ev; try discriminate; injection Hcfg as <- <-; [exact Hev|].
      apply Hev. }
    destruct (config_fact_input_dim _ _ _ _ Hfact)
      as (train & fam & base & ? & ? & ? & ? & ?).
    by exists args, train, fam, base.
  - intros r cfg Hr.
    destruct (parse_args w argv) as [e|args] eqn:Hp.
    + rewrite (run_rejected _ _ _ Hp) in Hr.
      change ((∅ : gmap loc config) !! r = Some cfg) in Hr.
      by rewrite lookup_empty in Hr.
    + destruct (run_events _ _ _ Hp) as [_ Hheap].
      destruct (config_fact_input_dim _ _ _ _ (Hheap _ _ Hr))
        as (train & fam & base & ? & ? & ? & ? & ?).
      by exists args, train.
Qed.

Lemma input_dim_is_dataset_shape_witness :
  EvNewModule Encoder_VAE_MNIST 0 DemoRuns.resolved_config
    ∈ events Demo.world DemoRuns.rhvae_with_file
  /\ exists args train fam base,
       parse_args Demo.world DemoRuns.rhvae_with_file = inr args /\
       stored Demo.world args "train_data.npz" = inr train /\
       table_lookup (model_name args) family_table = Some fam /\
       resolved Demo.world args (schema fam) base /\
       DemoRuns.resolved_config !! "input_dim"
       = Some (VTuple (tail (shape train))) /\
       (forall k, k <> "input_dim" -> DemoRuns.resolved_config !! k = base !! k).
Proof.
  assert (EvNewModule Encoder_VAE_MNIST 0 DemoRuns.resolved_config
            ∈ events Demo.world DemoRuns.rhvae_with_file) as Hin.
  { apply list_elem_of_lookup. exists 11%nat. vm_compute. reflexivity. }
  split; [exact Hin|].
  exact (proj1 (input_dim_is_dataset_shape Demo.world DemoRuns.rhvae_with_file)
               _ 0%nat DemoRuns.resolved_config Hin eq_refl).
Defined.

(** ** The selection of the encoder and the decoder *)

(** The registry of the specification is the chain of imports of [main]. *)
Lemma registry_imports (ds : string) :
  In ds dataset_choices ->
  exists e,
    table_lookup ds registry = Some e /\
    imports ds = (Some (autoencoding_encoder e), Some (variational_encoder e),
                  Some (shared_decoder e)).
Proof.
  intros [<-|[<-|[<-|[]]]]; eexists; split; reflexivity.
Qed.

Lemma family_classes (name : string) (fam : family) :
  table_lookup name family_table = Some fam ->
  (compat fam = AE_style <-> name = "ae" \/ name = "wae")
  /\ (compat fam = VAE_style <->
      name = "vae" \/ name = "beta_vae" \/ name = "vamp" \/ name = "hvae"
      \/ name = "rhvae").
Proof.
  unfold family_table. cbn [table_lookup]. intros H.
  repeat match type of H with
         | (if ?n =? ?k then _ else _) = _ =>
             destruct (String.eqb_spec n k) as [->|?];
             [ injection H as <-; cbn [compat]; split; split;
               first [ discriminate | intros; intuition discriminate
                     | intros; intuition congruence ]
             |]
         end.
  discriminate.
Qed.

Lemma resolved_unique (w : World) (args : Args) (c : config_class)
    (base base' : config) :
  resolved w args c base -> resolved w args c base' -> base = base'.
Proof. unfold resolved. destruct (model_config args); congruence. Qed.

(** One run has one resolved configuration. *)
Lemma config_fact_unique (w : World) (args : Args) (r r' : loc)
    (cfg cfg' : config) :
  config_fact w args r cfg -> config_fact w args r' cfg' -> r = r' /\ cfg = cfg'.
Proof.
  intros (-> & train & fam & base & Ht & Hf & Hb & ->)
         (-> & train' & fam' & base' & Ht' & Hf' & Hb' & ->).
  split; [done|].
  assert (train' = train) as -> by congruence.
  assert (fam' = fam) as -> by congruence.
  by rewrite (resolved_unique _ _ _ _ _ Hb Hb').
Qed.

(** C2: whenever a model constructor is called, the family of the run is in
    the table, the encoder passed is the one the constructor of the family's
    compatibility class (autoencoding for [ae] and [wae], variational for
    the five others) returned, the decoder passed is the one the shared
    decoder constructor returned, both for the data set of the run, and
    every encoder or decoder of the run was constructed from the same
    configuration object, with the same attributes, [input_dim] being the
    shape of the data. *)
Theorem encoder_decoder_selection (w : World)
    (argv : list (option_string * string))
    (Model : model_class) (r : loc) (cfg : config) (enc dec : module) :
  EvNewModel Model r cfg enc dec ∈ events w argv ->
  exists args fam e train,
    parse_args w argv = inr args /\
    table_lookup (model_name args) family_table = Some fam /\
    (compat fam = AE_style <->
     model_name args = "ae" \/ model_name args = "wae") /\
    (compat fam = VAE_style <->
     model_name args = "vae" \/ model_name args = "beta_vae"
     \/ model_name args = "vamp" \/ model_name args = "hvae"
     \/ model_name args = "rhvae") /\
    table_lookup (dataset args) registry = Some e /\
    Model = constructor fam /\
    nn_new w (selected_encoder e (compat fam)) cfg = inr enc /\
    nn_new w (shared_decoder e) cfg = inr dec /\
    stored w args "train_data.npz" = inr train /\
    cfg !! "input_dim" = Some (VTuple (tail (shape train))) /\
    (forall c r' cfg',
        EvNewModule c r' cfg' ∈ events w argv -> r' = r /\ cfg' = cfg).
Proof.
  intros Hin.
  destruct (event_parsed _ _ _ Hin) as (args & Hp & Hev).
  destruct Hev as (Hcfg & fam & ea & ev & d & c & Hfam & -> & Himp & Hsel & Henc & Hdec).
  destruct (parse_args_choices _ _ _ Hp) as [Hds _].
  destruct (registry_imports _ Hds) as (e & He & Himp').
  rewrite Himp' in Himp. injection Himp as <- <- <-.
  destruct (family_classes _ _ Hfam) as [Hae Hvae].
  destruct (config_fact_input_dim _ _ _ _ Hcfg)
    as (train & fam' & base & Htrain & _ & _ & Hdim & _).
  exists args, fam, e, train. repeat split; try done; try apply Hae; try apply Hvae.
  - unfold selected_encoder. destruct (compat fam); congruence.
  - destruct (event_parsed _ _ _ H) as (args' & Hp' & Hev').
    assert (args' = args) as -> by congruence.
    by destruct (config_fact_unique _ _ _ _ _ _ Hev' Hcfg).
  - destruct (event_parsed _ _ _ H) as (args' & Hp' & Hev').
    assert (args' = args) as -> by congruence.
    by destruct (config_fact_unique _ _ _ _ _ _ Hev' Hcfg).
Qed.

Lemma encoder_decoder_selection_witness :
  EvNewModel WAE_MMD 0 DemoWae.cfg DemoWae.enc DemoWae.dec
    ∈ events Demo.world DemoWae.argv
  /\ exists args fam e train,
    parse_args Demo.world DemoWae.argv = inr args /\
    table_lookup (model_name args) family_table = Some fam /\
    (compat fam = AE_style <->
     model_name args = "ae" \/ model_name args = "wae") /\
    (compat fam = VAE_style <->
     model_name args = "vae" \/ model_name args = "beta_vae"
     \/ model_name args = "vamp" \/ model_name args = "hvae"
     \/ model_name args = "rhvae") /\
    table_lookup (dataset args) registry = Some e /\
    WAE_MMD = constructor fam /\
    nn_new Demo.world (selected_encoder e (compat fam)) DemoWae.cfg
    = inr DemoWae.enc /\
    nn_new Demo.world (shared_decoder e) DemoWae.cfg = inr DemoWae.dec /\
    stored Demo.world args "train_data.npz" = inr train /\
    DemoWae.cfg !! "input_dim" = Some (VTuple (tail (shape train))) /\
    (forall c r' cfg',
        EvNewModule c r' cfg' ∈ events Demo.world DemoWae.argv ->
        r' = 0%nat /\ cfg' = DemoWae.cfg).
Proof.
  assert (EvNewModel WAE_MMD 0 DemoWae.cfg DemoWae.enc DemoWae.dec
            ∈ events Demo.world DemoWae.argv) as Hin.
  { apply list_elem_of_lookup. exists 13%nat. vm_compute. reflexivity. }
  split; [exact Hin|].
  exact (encoder_decoder_selection Demo.world DemoWae.argv _ _ _ _ _ Hin).
Defined.

(** ** Normalization *)

Lemma normalized_in_range (x : Z) :
  (0 <= x <= 255)%Z -> (0 <= normalized x <= 1)%Q.
Proof.
  intros [Hlo Hhi]. unfold normalized, Qle, Qdiv, Qmult, Qinv, inject_Z. cbn. lia.
Qed.

Lemma normalized_below (x : Z) : (x < 0)%Z -> (normalized x < 0)%Q.
Proof. intros H. unfold normalized, Qlt, Qdiv, Qmult, Qinv, inject_Z. cbn. lia. Qed.

Lemma normalized_above (x : Z) : (255 < x)%Z -> (1 < normalized x)%Q.
Proof. intros H. unfold normalized, Qlt, Qdiv, Qmult, Qinv, inject_Z. cbn. lia. Qed.

Lemma true_divide_lookup (arr : ndarray Z) (i : nat) (x : Z) :
  flat arr !! i = Some x -> flat (true_divide arr 255) !! i = Some (normalized x).
Proof.
  intros H. unfold true_divide. cbn [flat].
  change (map ?f ?l) with (f <$> l). by rewrite list_lookup_fmap, H.
Qed.

Lemma load_data_result (w : World) (args : Args) (name : string) (s : state) :
  (load_data w args name s).2
  = match stored w args name with
    | inl e => inl e
    | inr raw =>
        inr (NdArray (shape raw) (map (fun x => (inject_Z x / 255)%Q) (flat raw)))
    end.
Proof.
  unfold load_data, emit, lift, mbind, mret, M_bind, M_ret. cbn [fst snd].
  by destruct (stored w args name).
Qed.

(** C3: whatever is loaded from a file of the data set folder is the stored
    array with every element divided by 255, or the failure of the load.
    The arrays handed to the training pipeline are the stored train and
    eval arrays with the same shape and every element divided by 255,
    position by position.  The quotient of a sample in [0, 255] lies in
    [0, 1]; the quotient of a negative sample is negative and the quotient
    of a sample above 255 is above 1: nothing is clamped and nothing is
    scaled by the maximum of the array. *)
Theorem normalization_is_division (w : World)
    (argv : list (option_string * string)) (tc : config) (m : model)
    (train_data eval_data : ndarray Q) :
  EvPipelineCall tc m train_data eval_data ∈ events w argv ->
  exists args train eval,
    parse_args w argv = inr args /\
    (forall name s,
        (load_data w args name s).2
        = match stored w args name with
          | inl e => inl e
          | inr raw =>
              inr (NdArray (shape raw)
                           (map (fun x => (inject_Z x / 255)%Q) (flat raw)))
          end) /\
    stored w args "train_data.npz" = inr train /\
    stored w args "eval_data.npz" = inr eval /\
    shape train_data = shape train /\
    shape eval_data = shape eval /\
    flat train_data = map (fun x => (inject_Z x / 255)%Q) (flat train) /\
    flat eval_data = map (fun x => (inject_Z x / 255)%Q) (flat eval) /\
    (forall i x, flat train !! i = Some x ->
                 flat train_data !! i = Some (inject_Z x / 255)%Q) /\
    (forall i x, flat eval !! i = Some x ->
                 flat eval_data !! i = Some (inject_Z x / 255)%Q) /\
    (forall x, (0 <= x <= 255)%Z -> (0 <= inject_Z x / 255 <= 1)%Q) /\
    (forall x, (x < 0)%Z -> (inject_Z x / 255 < 0)%Q) /\
    (forall x, (255 < x)%Z -> (1 < inject_Z x / 255)%Q).
Proof.
  intros Hin.
  destruct (event_parsed _ _ _ Hin) as (args & Hp & Hev).
  destruct Hev as (_ & _ & _ & train & eval & Htrain & Heval & -> & ->).
  exists args, train, eval.
  split; [exact Hp|].
  split; [intros name s; apply load_data_result|].
  split; [exact Htrain|]. split; [exact Heval|].
  split; [reflexivity|]. split; [reflexivity|].
  split; [reflexivity|]. split; [reflexivity|].
  split; [intros i x; apply true_divide_lookup|].
  split; [intros i x; apply true_divide_lookup|].
  split; [exact normalized_in_range|].
  split; [exact normalized_below | exact normalized_above].
Qed.

Lemma normalization_is_division_witness :
  EvPipelineCall DemoVae.tc DemoVae.vae DemoVae.train_data DemoVae.eval_data
    ∈ events Demo.world DemoVae.argv
  /\ exists args train eval,
    parse_args Demo.world DemoVae.argv = inr args /\
    (forall name s,
        (load_data Demo.world args name s).2
        = match stored Demo.world args name with
          | inl e => inl e
          | inr raw =>
              inr (NdArray (shape raw)
                           (map (fun x => (inject_Z x / 255)%Q) (flat raw)))
          end) /\
    stored Demo.world args "train_data.npz" = inr train /\
    stored Demo.world args "eval_data.npz" = inr eval /\
    shape DemoVae.train_data = shape train /\
    shape DemoVae.eval_data = shape eval /\
    flat DemoVae.train_data = map (fun x => (inject_Z x / 255)%Q) (flat train) /\
    flat DemoVae.eval_data = map (fun x => (inject_Z x / 255)%Q) (flat eval) /\
    (forall i x, flat train !! i = Some x ->
                 flat DemoVae.train_data !! i = Some (inject_Z x / 255)%Q) /\
    (forall i x, flat eval !! i = Some x ->
                 flat DemoVae.eval_data !! i = Some (inject_Z x / 255)%Q) /\
    (forall x, (0 <= x <= 255)%Z -> (0 <= inject_Z x / 255 <= 1)%Q) /\
    (forall x, (x < 0)%Z -> (inject_Z x / 255 < 0)%Q) /\
    (forall x, (255 < x)%Z -> (1 < inject_Z x / 255)%Q).
Proof.
  assert (EvPipelineCall DemoVae.tc DemoVae.vae DemoVae.train_data
            DemoVae.eval_data ∈ events Demo.world DemoVae.argv) as Hin.
  { apply list_elem_of_lookup. exists 21%nat. vm_compute. reflexivity. }
  split; [exact Hin|].
  exact (normalization_is_division Demo.world DemoVae.argv _ _ _ _ Hin).
Defined.

(** ** Failure of the data load *)








(** ** Unsupported data sets *)







(** ** The shape injected into the configuration *)

Lemma join2_name_inj (p a b : string) :
  startswith_sep a = false -> startswith_sep b = false ->
  join2 p a = join2 p b -> a = b.
Proof.
  unfold join2. intros -> ->.
  destruct (String.eqb p EmptyString || endswith_sep p)%bool; intros H.
  - by apply (inj (String.append p)) in H.
  - apply (inj (String.append p)) in H. by injection H.
Qed.

Lemma data_path_train_eval (w : World) (args : Args) :
  data_path w args "train_data.npz" <> data_path w args "eval_data.npz".
Proof.
  unfold data_path, path_join. cbn [fold_left]. intros H.
  apply join2_name_inj in H; [discriminate H|reflexivity..].
Qed.

Lemma stored_train_reshaped (w : World) (args : Args) (sh : list Z) :
  stored (with_shape (data_path w args "eval_data.npz") sh w) args
         "train_data.npz"
  = stored w args "train_data.npz".
Proof.
  unfold stored.
  change (data_path (with_shape _ _ w) args ?n) with (data_path w args n).
  cbn [np_load with_shape].
  destruct (np_load w (data_path w args "train_data.npz")) as [e|npz];
    [reflexivity|].
  destruct (String.eqb_spec (data_path w args "train_data.npz")
              (data_path w args "eval_data.npz")) as [Heq|_]; [|reflexivity].
  by destruct (data_path_train_eval w args).
Qed.

Lemma stored_eval_reshaped (w : World) (args : Args) (sh : list Z) :
  stored (with_shape (data_path w args "eval_data.npz") sh w) args
         "eval_data.npz"
  = match stored w args "eval_data.npz" with
    | inl e => inl e
    | inr arr => inr (reshape sh arr)
    end.
Proof.
  unfold stored.
  change (data_path (with_shape _ _ w) args ?n) with (data_path w args n).
  cbn [np_load with_shape].
  destruct (np_load w (data_path w args "eval_data.npz")) as [e|npz];
    [reflexivity|].
  rewrite String.eqb_refl. unfold getitem. rewrite lookup_alter_eq.
  by destruct (npz !! "data").
Qed.

Lemma array_min_reshape (sh : list Z) (arr : ndarray Z) :
  array_min (true_divide (reshape sh arr) 255) = array_min (true_divide arr 255).
Proof. reflexivity. Qed.

Lemma array_max_reshape (sh : list Z) (arr : ndarray Z) :
  array_max (true_divide (reshape sh arr) 255) = array_max (true_divide arr 255).
Proof. reflexivity. Qed.

(** Evaluates the run in the reshaped world along the equations of the run
    in the original one. *)
Ltac replay :=
  repeat first
    [ progress cbn beta iota delta [heap trace app fst snd]
    | rewrite alter_fresh
    | rewrite deref_insert
    | rewrite array_min_reshape
    | rewrite array_max_reshape
    | match goal with
      | H : ?l = _ |- context [match ?l with _ => _ end] => rewrite H
      end ].

Lemma main_ignores_eval_shape (w : World) (args : Args) (sh : list Z) :
  post (fun s _ =>
          map forget_eval_shape
            (trace (main (with_shape (data_path w args "eval_data.npz") sh w)
                         args init).1)
          = map forget_eval_shape (trace s))
       (main w args init).
Proof.
  unfold_script. unfold init.
  rewrite stored_train_reshaped, stored_eval_reshaped.
  change (data_path (with_shape _ _ w) args ?n) with (data_path w args n).
  cbn [with_shape from_json_file default_config nn_new model_new
       training_from_json_file pipeline_new pipeline_call].
  exec.
  all: replay.
  all: reflexivity.
Qed.

(** C6: the value the script writes into the configuration is
    [tuple(train.shape[1:])] of the stored train array, and it writes no
    other attribute.  The shape of the stored eval array is compared with
    nothing: give it any other shape and the run makes the same calls with
    the same arguments, up to and including the call of the training
    pipeline, except that the eval array carries its own shape into the
    summary line and into the pipeline. *)
Theorem eval_shape_is_never_checked (w : World)
    (argv : list (option_string * string)) (args : Args) :
  parse_args w argv = inr args ->
  (forall r attr v,
      EvSetAttr r attr v ∈ events w argv ->
      attr = "input_dim" /\
      exists train,
        stored w args "train_data.npz" = inr train /\
        v = VTuple (tail (shape train)))
  /\ forall sh,
      let w' := with_shape (data_path w args "eval_data.npz") sh w in
      stored w' args "train_data.npz" = stored w args "train_data.npz"
      /\ stored w' args "eval_data.npz"
         = match stored w args "eval_data.npz" with
           | inl e => inl e
           | inr arr => inr (NdArray sh (flat arr))
           end
      /\ map forget_eval_shape (events w' argv)
         = map forget_eval_shape (events w argv).
Proof.
  intros Hp. split.
  - intros r attr v Hin.
    destruct (event_parsed _ _ _ Hin) as (args' & Hp' & Hev).
    assert (args' = args) as -> by congruence.
    destruct Hev as (_ & -> & train & Htrain & ->).
    split; [reflexivity|]. by exists train.
  - intros sh w'. split; [apply stored_train_reshaped|].
    split; [apply stored_eval_reshaped|].
    unfold events. rewrite !run_unfold.
    change (parse_args w' argv) with (parse_args w argv). rewrite Hp.
    apply (main_ignores_eval_shape w args sh).
Qed.

Lemma eval_shape_is_never_checked_witness :
  parse_args Demo.world DemoVae.argv = inr DemoVae.args
  /\ (forall r attr v,
      EvSetAttr r attr v ∈ events Demo.world DemoVae.argv ->
      attr = "input_dim" /\
      exists train,
        stored Demo.world DemoVae.args "train_data.npz" = inr train /\
        v = VTuple (tail (shape train)))
  /\ forall sh,
      let w' := with_shape (data_path Demo.world DemoVae.args "eval_data.npz")
                           sh Demo.world in
      stored w' DemoVae.args "train_data.npz"
      = stored Demo.world DemoVae.args "train_data.npz"
      /\ stored w' DemoVae.args "eval_data.npz"
         = match stored Demo.world DemoVae.args "eval_data.npz" with
           | inl e => inl e
           | inr arr => inr (NdArray sh (flat arr))
           end
      /\ map forget_eval_shape (events w' DemoVae.argv)
         = map forget_eval_shape (events Demo.world DemoVae.argv).
Proof.
  split; [reflexivity|].
  apply (eval_shape_is_never_checked Demo.world DemoVae.argv DemoVae.args).
  reflexivity.
Defined.

(** ** Default or loaded configuration *)

Lemma consume_all_model_config (argv : list (option_string * string)) :
  forall ns ns',
    consume_all ns argv = inr ns' ->
    ns_model_config ns'
    = match given opt_model_config argv with
      | Some v => Some v
      | None => ns_model_config ns
      end.
Proof.
  induction argv as [|[o v] argv IH]; intros ns ns'; cbn [consume_all given].
  - by intros [= <-].
  - destruct (consume ns o v) as [e|ns1] eqn:Hstep; [discriminate|].
    intros Hrest. rewrite (IH _ _ Hrest).
    destruct (given opt_model_config argv); [reflexivity|].
    destruct o; cbn [consume] in Hstep.
    all: try (destruct (existsb _ _); [|discriminate]).
    all: injection Hstep as <-; reflexivity.
Qed.

(** [args.model_config] is [None] unless the option is given. *)
Lemma parse_args_model_config (w : World) (argv : list (option_string * string))
    (args : Args) :
  parse_args w argv = inr args ->
  model_config args = given opt_model_config argv.
Proof.
  unfold parse_args. intros H.
  destruct (consume_all (defaults w) argv) as [e|ns] eqn:Hns; [discriminate|].
  apply consume_all_model_config in Hns.
  destruct (ns_dataset ns); [|discriminate].
  destruct (ns_model_name ns); [|discriminate].
  injection H as <-. cbn [model_config]. rewrite Hns.
  by destruct (given opt_model_config argv).
Qed.

Lemma family_of_choice (name : string) :
  In name model_name_choices ->
  exists fam, table_lookup name family_table = Some fam.
Proof.
  intros [<-|[<-|[<-|[<-|[<-|[<-|[<-|[]]]]]]]]; eexists; reflexivity.
Qed.

Lemma array_min_nonempty (arr : ndarray Z) :
  flat arr <> [] -> exists q, array_min (true_divide arr 255) = inr q.
Proof.
  unfold array_min, true_divide. cbn [flat].
  destruct (flat arr); [done|]. intros _. eexists. reflexivity.
Qed.

Lemma array_max_nonempty (arr : ndarray Z) :
  flat arr <> [] -> exists q, array_max (true_divide arr 255) = inr q.
Proof.
  unfold array_max, true_divide. cbn [flat].
  destruct (flat arr); [done|]. intros _. eexists. reflexivity.
Qed.

Ltac find_event :=
  repeat first [apply list_elem_of_here | apply list_elem_of_further].

(** Once both arrays are loaded and hold samples, [main] resolves the
    configuration of the family. *)
Lemma main_resolves (w : World) (args : Args) (fam : family)
    (train eval : ndarray Z) :
  table_lookup (model_name args) family_table = Some fam ->
  stored w args "train_data.npz" = inr train ->
  stored w args "eval_data.npz" = inr eval ->
  flat train <> [] -> flat eval <> [] ->
  post (fun s r =>
          match model_config args with
          | None =>
              EvDefaultConfig (schema fam) ∈ trace s /\
              heap s !! 0%nat
              = Some (<["input_dim" := dataset_shape train]>
                        (default_config w (schema fam)))
          | Some path =>
              EvFromJsonFile (schema fam) path ∈ trace s /\
              match from_json_file w (schema fam) path with
              | inl e => r = inl e
              | inr base =>
                  heap s !! 0%nat
                  = Some (<["input_dim" := dataset_shape train]> base)
              end
          end)
       (main w args init).
Proof.
  intros Hfam Htrain Heval Hne Hne'.
  destruct (array_min_nonempty _ Hne) as [lo Hlo].
  destruct (array_max_nonempty _ Hne) as [hi Hhi].
  destruct (array_min_nonempty _ Hne') as [lo' Hlo'].
  destruct (array_max_nonempty _ Hne') as [hi' Hhi'].
  unfold_script. unfold init.
  rewrite Htrain, Heval.
  cbn beta iota delta [heap trace app fst snd].
  rewrite Hlo, Hhi. cbn beta iota delta [heap trace app fst snd].
  rewrite Hlo', Hhi'.
  exec.
  all: rewrite ?first_loc.
  all: unfold family_table in Hfam; cbn [table_lookup] in Hfam.
  all: repeat match goal with
              | H : (_ =? _) = false |- _ => rewrite H in Hfam
              end.
  all: try discriminate Hfam.
  all: name_eq.
  all: match goal with
       | H : model_name _ = _ |- _ => rewrite H in Hfam
       end.
  all: vm_compute in Hfam; injection Hfam as <-; cbn [schema].
  all: repeat match goal with
              | H : from_json_file _ _ _ = _ |- _ => rewrite H
              end.
  all: split; [find_event | first [reflexivity | apply lookup_insert_eq]].
Qed.

(** C7: the parser leaves [args.model_config] at [None] unless
    [--model_config] is given.  For every model family: without a path the
    only configuration the run creates is the default one of the family's
    own configuration class, with [input_dim] overwritten and nothing else
    changed; with a path the run reads that file with the [from_json_file]
    of the family's own configuration class, and fails with its error if
    the file cannot be read.  Once both arrays are loaded and hold samples
    the configuration is resolved this way. *)
Theorem model_config_default_or_file (w : World)
    (argv : list (option_string * string)) (args : Args) :
  parse_args w argv = inr args ->
  model_config args = given opt_model_config argv
  /\ exists fam,
    table_lookup (model_name args) family_table = Some fam
    /\ (forall c, EvDefaultConfig c ∈ events w argv ->
                  model_config args = None /\ c = schema fam)
    /\ (forall c path, EvFromJsonFile c path ∈ events w argv ->
                       model_config args = Some path /\ c = schema fam)
    /\ (forall r cfg,
          heap (run w argv).1 !! r = Some cfg ->
          exists train,
            stored w args "train_data.npz" = inr train /\
            match model_config args with
            | None =>
                cfg = <["input_dim" := VTuple (tail (shape train))]>
                        (default_config w (schema fam))
            | Some path =>
                exists base,
                  from_json_file w (schema fam) path = inr base /\
                  cfg = <["input_dim" := VTuple (tail (shape train))]> base
            end)
    /\ (forall train eval,
          stored w args "train_data.npz" = inr train ->
          stored w args "eval_data.npz" = inr eval ->
          flat train <> [] -> flat eval <> [] ->
          match model_config args with
          | None =>
              EvDefaultConfig (schema fam) ∈ events w argv /\
              heap (run w argv).1 !! 0%nat
              = Some (<["input_dim" := VTuple (tail (shape train))]>
                        (default_config w (schema fam)))
          | Some path =>
              EvFromJsonFile (schema fam) path ∈ events w argv /\
              match from_json_file w (schema fam) path with
              | inl e => outcome w argv = inl e
              | inr base =>
                  heap (run w argv).1 !! 0%nat
                  = Some (<["input_dim" := VTuple (tail (shape train))]> base)
              end
          end).
Proof.
  intros Hp. split; [exact (parse_args_model_config w argv args Hp)|].
  destruct (parse_args_choices _ _ _ Hp) as [_ Hname].
  destruct (family_of_choice _ Hname) as [fam Hfam].
  exists fam. split; [exact Hfam|].
  assert (forall ev, ev ∈ events w argv -> event_fact w args ev) as Hfact.
  { intros ev Hin. destruct (event_parsed _ _ _ Hin) as (args' & Hp' & Hev).
    by assert (args' = args) as -> by congruence. }
  split; [|split; [|split]].
  - intros c Hin. destruct (Hfact _ Hin) as (Hnone & fam' & Hfam' & ->).
    split; [exact Hnone|]. congruence.
  - intros c path Hin. destruct (Hfact _ Hin) as (Hsome & fam' & Hfam' & ->).
    split; [exact Hsome|]. congruence.
  - intros r cfg Hr. destruct (run_events _ _ _ Hp) as [_ Hheap].
    destruct (Hheap _ _ Hr)
      as (_ & train & fam' & base & Htrain & Hfam' & Hbase & ->).
    assert (fam' = fam) as -> by congruence.
    exists train. split; [exact Htrain|].
    unfold resolved in Hbase. destruct (model_config args) as [path|].
    + by exists base.
    + by rewrite Hbase.
  - intros train eval Htrain Heval Hne Hne'.
    pose proof (main_resolves w args fam train eval Hfam Htrain Heval Hne Hne')
      as Hmain.
    unfold post in Hmain. unfold events, outcome. rewrite run_unfold, Hp.
    exact Hmain.
Qed.

Lemma model_config_default_or_file_witness :
  parse_args Demo.world DemoVae.argv = inr DemoVae.args
  /\ (model_config DemoVae.args = given opt_model_config DemoVae.argv
  /\ exists fam,
    table_lookup (model_name DemoVae.args) family_table = Some fam
    /\ (forall c, EvDefaultConfig c ∈ events Demo.world DemoVae.argv ->
                  model_config DemoVae.args = None /\ c = schema fam)
    /\ (forall c path, EvFromJsonFile c path ∈ events Demo.world DemoVae.argv ->
                       model_config DemoVae.args = Some path /\ c = schema fam)
    /\ (forall r cfg,
          heap (run Demo.world DemoVae.argv).1 !! r = Some cfg ->
          exists train,
            stored Demo.world DemoVae.args "train_data.npz" = inr train /\
            match model_config DemoVae.args with
            | None =>
                cfg = <["input_dim" := VTuple (tail (shape train))]>
                        (default_config Demo.world (schema fam))
            | Some path =>
                exists base,
                  from_json_file Demo.world (schema fam) path = inr base /\
                  cfg = <["input_dim" := VTuple (tail (shape train))]> base
            end)
    /\ (forall train eval,
          stored Demo.world DemoVae.args "train_data.npz" = inr train ->
          stored Demo.world DemoVae.args "eval_data.npz" = inr eval ->
          flat train <> [] -> flat eval <> [] ->
          match model_config DemoVae.args with
          | None =>
              EvDefaultConfig (schema fam) ∈ events Demo.world DemoVae.argv /\
              heap (run Demo.world DemoVae.argv).1 !! 0%nat
              = Some (<["input_dim" := VTuple (tail (shape train))]>
                        (default_config Demo.world (schema fam)))
          | Some path =>
              EvFromJsonFile (schema fam) path ∈ events Demo.world DemoVae.argv /\
              match from_json_file Demo.world (schema fam) path with
              | inl e => outcome Demo.world DemoVae.argv = inl e
              | inr base =>
                  heap (run Demo.world DemoVae.argv).1 !! 0%nat
                  = Some (<["input_dim" := VTuple (tail (shape train))]> base)
              end
          end)).
Proof.
  split; [reflexivity|].
  apply (model_config_default_or_file Demo.world DemoVae.argv DemoVae.args).
  reflexivity.
Defined.

(** ** The reported parameter counts *)








(** ** Where the files are looked for *)












(** ** The training configuration and the pipeline *)




Section Order.
Variables (w : World) (argv : list (option_string * string)) (args : Args).
Hypothesis Hp : parse_args w argv = inr args.





End Order.



(** The run of the demo world with a broken training configuration: the
    model is built, the error of the parser surfaces, no pipeline. *)
Example broken_training_config_run :
  outcome Demo.world DemoBroken.argv = inl DemoBroken.error
  /\ existsb is_new_model (events Demo.world DemoBroken.argv) = true
  /\ existsb is_pipeline_call (events Demo.world DemoBroken.argv) = false.
Proof. repeat split; vm_compute; reflexivity. Qed.

(** * Further properties of the script *)

(** ** The command line as a whole *)









(** ** [main] on names the parser would not let through *)

(** Runs [main] along the equations at hand, splitting only where they say
    nothing. *)
Ltac guided_step :=
  lazymatch goal with
  | |- post _ ?t =>
      let x := stuck t in
      match goal with
      | H : x = _ |- _ => rewrite H
      end
  end.

Lemma setattr_object (h : gmap loc config) (r : loc) (c : config) (k : string)
    (v : value) :
  alter (insert k v) r (<[r := c]> h) = <[r := <[k := v]> c]> h.
Proof. by rewrite alter_insert_eq. Qed.

(** A test on a name whose value is known. *)
Ltac decide_eqb :=
  lazymatch goal with
  | |- post _ ?t =>
      let x := stuck t in
      lazymatch x with
      | String.eqb ?a ?b =>
          match goal with
          | H : a = ?v |- _ =>
              let c := eval vm_compute in (String.eqb v b) in
              replace (String.eqb a b) with c by (rewrite H; reflexivity)
          end
      end
  end.

Ltac guided :=
  repeat first
    [ progress cbn beta iota delta [heap trace app fst snd]
    | rewrite setattr_object
    | rewrite deref_insert
    | rewrite first_loc
    | progress change (shape (true_divide ?a ?d)) with (shape a)
    | guided_step
    | decide_eqb
    | exec_step ];
  unfold post; cbn beta iota delta [fst snd heap trace].

Lemma not_choice_eqb (name : string) (choices : list string) (x : string) :
  ~ In name choices -> In x choices -> (name =? x) = false.
Proof.
  intros Hno Hx. destruct (String.eqb_spec name x) as [->|]; [contradiction|done].
Qed.

(** X4: [main] has no branch for a model name outside the seven: called
    with such a name on data that loads, it prints the data summary and
    the line that the model was built, and then fails with an
    [UnboundLocalError] on [model]; no configuration was created and no
    constructor called. *)
Theorem main_unknown_model_name (w : World) (args : Args)
    (train eval : ndarray Z) :
  ~ In (model_name args) model_name_choices ->
  stored w args "train_data.npz" = inr train ->
  stored w args "eval_data.npz" = inr eval ->
  flat train <> [] -> flat eval <> [] ->
  (exists msg,
      (run_main w args).2 = inl (Exn "UnboundLocalError" msg None)
      /\ contains "'model'" msg)
  /\ last (trace (run_main w args).1) = Some (EvLog (LogBuilt (model_name args)))
  /\ Forall (fun ev => beyond_loading ev = false) (trace (run_main w args).1)
  /\ heap (run_main w args).1 = ∅.
Proof.
  intros Hno Htrain Heval Hne Hne'.
  destruct (array_min_nonempty _ Hne) as [lo Hlo].
  destruct (array_max_nonempty _ Hne) as [hi Hhi].
  destruct (array_min_nonempty _ Hne') as [lo' Hlo'].
  destruct (array_max_nonempty _ Hne') as [hi' Hhi'].
  assert (forall x, In x model_name_choices -> (model_name args =? x) = false)
    as Hall by (intros x; by apply not_choice_eqb).
  pose proof (Hall "ae") as H1. pose proof (Hall "vae") as H2.
  pose proof (Hall "wae") as H3. pose proof (Hall "vamp") as H4.
  pose proof (Hall "beta_vae") as H5. pose proof (Hall "hvae") as H6.
  pose proof (Hall "rhvae") as H7.
  cbn in H1, H2, H3, H4, H5, H6, H7.
  specialize (H1 ltac:(tauto)). specialize (H2 ltac:(tauto)).
  specialize (H3 ltac:(tauto)). specialize (H4 ltac:(tauto)).
  specialize (H5 ltac:(tauto)). specialize (H6 ltac:(tauto)).
  specialize (H7 ltac:(tauto)).
  change (post (fun s r =>
                  (exists msg, r = inl (Exn "UnboundLocalError" msg None)
                               /\ contains "'model'" msg)
                  /\ last (trace s) = Some (EvLog (LogBuilt (model_name args)))
                  /\ Forall (fun ev => beyond_loading ev = false) (trace s)
                  /\ heap s = ∅)
               (main w args init)).
  unfold_script. unfold init. guided.
  split; [|split; [reflexivity|split; [repeat constructor|reflexivity]]].
  eexists. split; [reflexivity|].
  eexists "cannot access local variable ", _. reflexivity.
Qed.

Lemma main_unknown_model_name_witness :
  ~ In (model_name DemoDirect.gan) model_name_choices
  /\ ((exists msg,
      (run_main Demo.world DemoDirect.gan).2 = inl (Exn "UnboundLocalError" msg None)
      /\ contains "'model'" msg)
  /\ last (trace (run_main Demo.world DemoDirect.gan).1) = Some (EvLog (LogBuilt (model_name DemoDirect.gan)))
  /\ Forall (fun ev => beyond_loading ev = false) (trace (run_main Demo.world DemoDirect.gan).1)
  /\ heap (run_main Demo.world DemoDirect.gan).1 = ∅).
Proof.
  assert (~ In (model_name DemoDirect.gan) model_name_choices) as Hno.
  { cbn. intros H. repeat destruct H as [H|H]; try discriminate H. exact H. }
  split; [exact Hno|].
  apply (main_unknown_model_name Demo.world DemoDirect.gan Demo.train Demo.eval
           Hno); [reflexivity | reflexivity | discriminate | discriminate].
Defined.

Lemma imports_unknown (ds : string) :
  ~ In ds dataset_choices -> imports ds = (None, None, None).
Proof.
  intros Hno. unfold imports.
  rewrite (not_choice_eqb ds dataset_choices "mnist" Hno) by (cbn; tauto).
  rewrite (not_choice_eqb ds dataset_choices "cifar10" Hno) by (cbn; tauto).
  rewrite (not_choice_eqb ds dataset_choices "celeba" Hno) by (cbn; tauto).
  reflexivity.
Qed.

(** X5: [main] has no branch for a data set outside the three either:
    called with such a name on data that loads, it creates the
    configuration of the model family, sets its [input_dim], and then fails
    with an [UnboundLocalError] on the encoder name of the family's branch;
    no encoder, decoder or model constructor is called. *)
Theorem main_unknown_dataset (w : World) (args : Args) (fam : family)
    (train eval : ndarray Z) (base : config) :
  ~ In (dataset args) dataset_choices ->
  table_lookup (model_name args) family_table = Some fam ->
  stored w args "train_data.npz" = inr train ->
  stored w args "eval_data.npz" = inr eval ->
  flat train <> [] -> flat eval <> [] ->
  resolved w args (schema fam) base ->
  (exists msg,
      (run_main w args).2 = inl (Exn "UnboundLocalError" msg None)
      /\ contains (encoder_name (compat fam)) msg)
  /\ Forall (fun ev => is_constructor_call ev = false)
            (trace (run_main w args).1)
  /\ heap (run_main w args).1
     = {[ 0%nat := <["input_dim" := VTuple (tail (shape train))]> base ]}.
Proof.
  intros Hno Hfam Htrain Heval Hne Hne' Hbase.
  destruct (array_min_nonempty _ Hne) as [lo Hlo].
  destruct (array_max_nonempty _ Hne) as [hi Hhi].
  destruct (array_min_nonempty _ Hne') as [lo' Hlo'].
  destruct (array_max_nonempty _ Hne') as [hi' Hhi'].
  pose proof (imports_unknown _ Hno) as Himp.
  change (post (fun s r =>
                  (exists msg, r = inl (Exn "UnboundLocalError" msg None)
                               /\ contains (encoder_name (compat fam)) msg)
                  /\ Forall (fun ev => is_constructor_call ev = false) (trace s)
                  /\ heap s = {[ 0%nat := <["input_dim" := VTuple (tail (shape train))]> base ]})
               (main w args init)).
  unfold resolved in Hbase.
  unfold_script. unfold init. rewrite Himp.
  destruct (model_config args) as [path|] eqn:Hcfg; guided.
  all: rewrite ?first_loc.
  all: unfold family_table in Hfam; cbn [table_lookup] in Hfam.
  all: repeat match goal with
              | H : (_ =? _) = false |- _ => rewrite H in Hfam
              end.
  all: try discriminate Hfam.
  all: name_eq.
  all: match goal with
       | H : model_name _ = _ |- _ => rewrite H in Hfam
       end.
  all: vm_compute in Hfam; injection Hfam as <-; cbn [schema compat] in *.
  all: try congruence.
  all: split; [|split; [repeat constructor|]].
  all: try (eexists; split; [reflexivity|];
            eexists "cannot access local variable ", _; reflexivity).
  all: subst; try reflexivity.
  all: match goal with
       | H : from_json_file _ _ _ = inr ?g, H' : from_json_file _ _ _ = inr ?b
         |- _ => rewrite H in H'; injection H' as <-
       end; reflexivity.
Qed.

Lemma main_unknown_dataset_witness :
  ~ In (dataset DemoDirect.svhn) dataset_choices
  /\ ((exists msg,
      (run_main DemoDirect.world DemoDirect.svhn).2 = inl (Exn "UnboundLocalError" msg None)
      /\ contains (encoder_name (compat (Family WAE_MMD_Config WAE_MMD AE_style))) msg)
  /\ Forall (fun ev => is_constructor_call ev = false)
            (trace (run_main DemoDirect.world DemoDirect.svhn).1)
  /\ heap (run_main DemoDirect.world DemoDirect.svhn).1
     = {[ 0%nat := <["input_dim" := VTuple (tail (shape Demo.train))]> (default_config Demo.world WAE_MMD_Config) ]}).
Proof.
  assert (~ In (dataset DemoDirect.svhn) dataset_choices) as Hno.
  { cbn. intros H. repeat destruct H as [H|H]; try discriminate H. exact H. }
  split; [exact Hno|].
  apply (main_unknown_dataset DemoDirect.world DemoDirect.svhn
           (Family WAE_MMD_Config WAE_MMD AE_style) Demo.train Demo.eval
           (default_config Demo.world WAE_MMD_Config) Hno);
    [reflexivity | reflexivity | reflexivity | discriminate | discriminate
    | reflexivity].
Defined.

(** ** Edges of the data load *)

Lemma array_min_empty (arr : ndarray Z) :
  flat arr = [] -> array_min (true_divide arr 255) = inl (zero_size "minimum").
Proof. unfold array_min, true_divide. cbn [flat]. by intros ->. Qed.

(** X6: an array without elements stops the run at the data summary: the
    minimum of the first empty array raises numpy's [ValueError], which is
    outside the [try] and surfaces as it is; no configuration is created
    and no call beyond loading and logging is made. *)
Theorem empty_array_is_ValueError (w : World)
    (argv : list (option_string * string)) (args : Args)
    (train eval : ndarray Z) :
  parse_args w argv = inr args ->
  stored w args "train_data.npz" = inr train ->
  stored w args "eval_data.npz" = inr eval ->
  flat train = [] \/ flat eval = [] ->
  outcome w argv
  = inl (Exn "ValueError"
             "zero-size array to reduction operation minimum which has no identity"
             None)
  /\ Forall (fun ev => beyond_loading ev = false) (events w argv)
  /\ heap (run w argv).1 = ∅.
Proof.
  intros Hp Htrain Heval Hempty.
  unfold outcome, events. rewrite run_unfold, Hp.
  change (post (fun s r =>
                  r = inl (zero_size "minimum")
                  /\ Forall (fun ev => beyond_loading ev = false) (trace s)
                  /\ heap s = ∅)
               (main w args init)).
  unfold_script. unfold init.
  destruct (flat train) as [|x xs] eqn:Hflat.
  - pose proof (array_min_empty _ Hflat) as Hmin. guided.
    split; [reflexivity|]. split; [repeat constructor|reflexivity].
  - destruct Hempty as [|Hflat']; [discriminate|].
    pose proof (array_min_empty _ Hflat') as Hmin.
    destruct (array_min_nonempty train) as [lo Hlo]; [by rewrite Hflat|].
    destruct (array_max_nonempty train) as [hi Hhi]; [by rewrite Hflat|].
    guided.
    split; [reflexivity|]. split; [repeat constructor|reflexivity].
Qed.


(** X8: the two files are loaded in order and the first failure ends the
    loading: when the train array cannot be loaded the eval file is not
    opened, and the only calls of the run are the line that loading starts
    and the load of the train file. *)
Theorem eval_not_opened_after_train_failure (w : World)
    (argv : list (option_string * string)) (args : Args) (e : exn) :
  parse_args w argv = inr args ->
  stored w args "train_data.npz" = inl e ->
  events w argv
  = [EvLog (LogLoading (dataset args));
     EvNpLoad (path_join (PATH w) [("data/" ++ dataset args)%string;
                                   "train_data.npz"])].
Proof.
  intros Hp Htrain.
  unfold events. rewrite run_unfold, Hp.
  change (post (fun s _ =>
                  trace s
                  = [EvLog (LogLoading (dataset args));
                     EvNpLoad (data_path w args "train_data.npz")])
               (main w args init)).
  unfold_script. unfold init. guided; reflexivity.
Qed.

Lemma empty_array_is_ValueError_witness :
  parse_args DemoEmpty.world DemoVae.argv = inr DemoVae.args
  /\ (outcome DemoEmpty.world DemoVae.argv
  = inl (Exn "ValueError"
             "zero-size array to reduction operation minimum which has no identity"
             None)
  /\ Forall (fun ev => beyond_loading ev = false) (events DemoEmpty.world DemoVae.argv)
  /\ heap (run DemoEmpty.world DemoVae.argv).1 = ∅).
Proof.
  split; [reflexivity|].
  apply (empty_array_is_ValueError DemoEmpty.world DemoVae.argv DemoVae.args
           Demo.train DemoEmpty.empty);
    [reflexivity | reflexivity | reflexivity | right; reflexivity].
Defined.


Lemma eval_not_opened_after_train_failure_witness :
  parse_args Demo.world DemoCifar.argv = inr DemoCifar.args
  /\ (events Demo.world DemoCifar.argv
  = [EvLog (LogLoading (dataset DemoCifar.args));
     EvNpLoad (path_join (PATH Demo.world) [("data/" ++ dataset DemoCifar.args)%string;
                                   "train_data.npz"])]).
Proof.
  split; [reflexivity|].
  apply (eval_not_opened_after_train_failure Demo.world DemoCifar.argv
           DemoCifar.args DemoCifar.missing); reflexivity.
Defined.

(** ** Failing calls *)

Lemma stops_at_failure_split (w : World) (r : exn + unit) (t1 t2 : list event)
    (ev : event) (e : exn) :
  stops_at_failure w (t1 ++ ev :: t2) r ->
  failure w ev = Some e ->
  t2 = [] /\ r = inl e.
Proof.
  intros Hstops Hev. induction t1 as [|y t1 IH]; cbn [app stops_at_failure] in Hstops.
  - by rewrite Hev in Hstops.
  - destruct (failure w y).
    + destruct Hstops as [Hnil _]. by destruct t1.
    + by apply IH.
Qed.

Ltac settle_failures :=
  repeat first
    [ progress cbn [stops_at_failure failure error_of]
    | match goal with
      | H : ?l = _ |- context [error_of ?l] => rewrite H
      end
    | match goal with
      | |- context [error_of ?l] => destruct l
      end
    | split; reflexivity
    | exact I ].

(** Every run of [main] ends at its first failing call, with the exception
    of that call; it returns only from the call of the pipeline, with what
    the pipeline returns. *)
Lemma main_stops_at_failure (w : World) (args : Args) :
  post (fun s r =>
          stops_at_failure w (trace s) r
          /\ Forall (returns_from w r) (trace s)
          /\ (forall u, r = inr u ->
              exists tc m train_data eval_data,
                last (trace s) = Some (EvPipelineCall tc m train_data eval_data)))
       (main w args init).
Proof.
  unfold_script. unfold init. exec.
  all: split; [settle_failures|].
  all: split; [repeat first [apply List.Forall_cons | apply List.Forall_nil];
               first [exact I | reflexivity] |].
  all: intros ? Hu; try discriminate Hu.
  all: do 4 eexists; reflexivity.
Qed.

(** X9: no failure of a collaborator is retried, wrapped or suppressed:
    when reading the configuration file, constructing the encoder, the
    decoder or the model, reading the training configuration, constructing
    the pipeline or running it raises, that call is the last call of the
    run and its exception is the outcome of the run, unchanged. *)
Theorem failing_call_ends_the_run (w : World)
    (argv : list (option_string * string)) (t1 t2 : list event) (ev : event)
    (e : exn) :
  events w argv = t1 ++ ev :: t2 ->
  failure w ev = Some e ->
  t2 = [] /\ outcome w argv = inl e.
Proof.
  intros Hsplit Hev. unfold events, outcome in *. rewrite run_unfold in *.
  destruct (parse_args w argv) as [e'|args].
  - by destruct t1.
  - destruct (main_stops_at_failure w args) as (Hstops & _ & _).
    rewrite Hsplit in Hstops.
    exact (stops_at_failure_split _ _ _ _ _ _ Hstops Hev).
Qed.

(** X10: what the training pipeline returns or raises is the outcome of
    the run, and the run ends normally exactly when its last call is the
    call of the pipeline and that call has returned. *)
Theorem run_returns_with_the_pipeline (w : World)
    (argv : list (option_string * string)) :
  (forall tc m train_data eval_data,
      EvPipelineCall tc m train_data eval_data ∈ events w argv ->
      outcome w argv = pipeline_call w tc m train_data eval_data)
  /\ (outcome w argv = inr tt <->
      exists tc m train_data eval_data,
        last (events w argv) = Some (EvPipelineCall tc m train_data eval_data)
        /\ pipeline_call w tc m train_data eval_data = inr tt).
Proof.
  unfold events, outcome. rewrite run_unfold.
  destruct (parse_args w argv) as [e|args].
  - split.
    + intros tc m td ed Hin. by apply elem_of_nil in Hin.
    + split; [discriminate|]. intros (? & ? & ? & ? & Hlast & _).
      discriminate Hlast.
  - destruct (main_stops_at_failure w args) as (_ & Hcall & Hret).
    rewrite List.Forall_forall in Hcall.
    assert (forall tc m td ed,
               EvPipelineCall tc m td ed ∈ trace (main w args init).1 ->
               (main w args init).2 = pipeline_call w tc m td ed) as Hout.
    { intros tc m td ed Hin. apply (Hcall _ (proj1 (list_elem_of_In _ _) Hin)). }
    split; [exact Hout|]. split.
    + intros Hok. destruct (Hret tt Hok) as (tc & m & td & ed & Hlast).
      exists tc, m, td, ed. split; [exact Hlast|].
      rewrite <- Hok. symmetry. apply Hout.
      apply last_Some in Hlast as [t1 ->]. apply elem_of_app. right.
      apply list_elem_of_here.
    + intros (tc & m & td & ed & Hlast & Hcall').
      rewrite <- Hcall'. apply Hout.
      apply last_Some in Hlast as [t1 ->]. apply elem_of_app. right.
      apply list_elem_of_here.
Qed.

Lemma run_returns_with_the_pipeline_witness :
  EvPipelineCall DemoVae.tc DemoVae.vae DemoVae.train_data DemoVae.eval_data
    ∈ events Demo.world DemoVae.argv
  /\ outcome Demo.world DemoVae.argv
     = pipeline_call Demo.world DemoVae.tc DemoVae.vae DemoVae.train_data
                     DemoVae.eval_data.
Proof.
  assert (EvPipelineCall DemoVae.tc DemoVae.vae DemoVae.train_data
            DemoVae.eval_data ∈ events Demo.world DemoVae.argv) as Hin.
  { apply list_elem_of_lookup. exists 21%nat. vm_compute. reflexivity. }
  split; [exact Hin|].
  exact (proj1 (run_returns_with_the_pipeline Demo.world DemoVae.argv)
               _ _ _ _ Hin).
Defined.

Lemma failing_call_ends_the_run_witness :
  events DemoFailing.world DemoVae.argv
  = DemoFailing.before ++ [EvNewModule Decoder_AE_MNIST 0 DemoVae.cfg]
  /\ failure DemoFailing.world (EvNewModule Decoder_AE_MNIST 0 DemoVae.cfg)
     = Some DemoFailing.rejected
  /\ (@nil event = [] /\ outcome DemoFailing.world DemoVae.argv = inl DemoFailing.rejected).
Proof.
  assert (events DemoFailing.world DemoVae.argv
          = DemoFailing.before ++ [EvNewModule Decoder_AE_MNIST 0 DemoVae.cfg])
    as Hsplit by (vm_compute; reflexivity).
  split; [exact Hsplit|]. split; [reflexivity|].
  exact (failing_call_ends_the_run DemoFailing.world DemoVae.argv
           DemoFailing.before [] _ DemoFailing.rejected Hsplit eq_refl).
Defined.

(** ** The run that succeeds *)

(** X11: when the data loads and holds samples and every collaborator
    returns, the run makes exactly these calls, in this order: the two
    loads, the data summary, the configuration of the family (from the file
    or by default), the write of [input_dim], the encoder, the decoder,
    the model, the parameter counts, the training configuration, the
    pipeline and its call on the model and the two normalized arrays; its
    outcome is what that call returns or raises. *)
Theorem successful_run (w : World) (argv : list (option_string * string))
    (args : Args) (fam : family) (e : entry) (train eval : ndarray Z)
    (lo hi lo' hi' : Q) (base : config) (enc dec : module) (aux : list param)
    (tc : config) :
  parse_args w argv = inr args ->
  table_lookup (model_name args) family_table = Some fam ->
  table_lookup (dataset args) registry = Some e ->
  stored w args "train_data.npz" = inr train ->
  stored w args "eval_data.npz" = inr eval ->
  array_min (true_divide train 255) = inr lo ->
  array_max (true_divide train 255) = inr hi ->
  array_min (true_divide eval 255) = inr lo' ->
  array_max (true_divide eval 255) = inr hi' ->
  resolved w args (schema fam) base ->
  nn_new w (selected_encoder e (compat fam))
         (<["input_dim" := VTuple (tail (shape train))]> base) = inr enc ->
  nn_new w (shared_decoder e)
         (<["input_dim" := VTuple (tail (shape train))]> base) = inr dec ->
  model_new w (constructor fam)
            (<["input_dim" := VTuple (tail (shape train))]> base) enc dec
  = inr aux ->
  training_from_json_file w (training_config args) = inr tc ->
  pipeline_new w tc (AssembledModel (constructor fam) 0 enc dec aux) = inr tt ->
  events w argv
  = [EvLog (LogLoading (dataset args));
     EvNpLoad (data_path w args "train_data.npz");
     EvNpLoad (data_path w args "eval_data.npz");
     EvLog LogLoaded; EvLog LogRule; EvLog LogDataHeader;
     EvLog (LogSplit (dataset args) "train" (shape train) lo hi);
     EvLog (LogSplit (dataset args) "eval" (shape eval) lo' hi');
     EvLog LogRule;
     match model_config args with
     | Some path => EvFromJsonFile (schema fam) path
     | None => EvDefaultConfig (schema fam)
     end;
     EvSetAttr 0 "input_dim" (VTuple (tail (shape train)));
     EvNewModule (selected_encoder e (compat fam)) 0
                 (<["input_dim" := VTuple (tail (shape train))]> base);
     EvNewModule (shared_decoder e) 0
                 (<["input_dim" := VTuple (tail (shape train))]> base);
     EvNewModel (constructor fam) 0
                (<["input_dim" := VTuple (tail (shape train))]> base) enc dec;
     EvLog (LogBuilt (model_name args));
     EvLog LogRule; EvLog LogParamHeader;
     EvLog (LogParams (model_name args)
                      (num_param (parameters enc))
                      (num_param (parameters dec))
                      (num_param (parameters enc ++ parameters dec ++ aux)));
     EvLog LogRule;
     EvTrainingConfig (training_config args);
     EvNewPipeline tc (AssembledModel (constructor fam) 0 enc dec aux);
     EvPipelineCall tc (AssembledModel (constructor fam) 0 enc dec aux)
                    (true_divide train 255) (true_divide eval 255)]
  /\ outcome w argv
     = pipeline_call w tc (AssembledModel (constructor fam) 0 enc dec aux)
                     (true_divide train 255) (true_divide eval 255)
  /\ heap (run w argv).1
     = {[ 0%nat := <["input_dim" := VTuple (tail (shape train))]> base ]}.
Proof.
  intros Hp Hfam He Htrain Heval Hlo Hhi Hlo' Hhi' Hbase Henc Hdec Hnew Htc Hpipe.
  destruct (parse_args_choices _ _ _ Hp) as [Hds _].
  destruct (registry_imports _ Hds) as (e' & He' & Himp).
  assert (e' = e) as -> by congruence.
  unfold outcome, events. rewrite run_unfold, Hp.
  match goal with
  | |- _ = ?evs /\ _ = ?out /\ _ = ?obj =>
      change (post (fun s r => trace s = evs /\ r = out /\ heap s = obj)
                   (main w args init))
  end.
  unfold resolved in Hbase.
  unfold family_table in Hfam; cbn [table_lookup] in Hfam.
  repeat match type of Hfam with
         | (if ?n =? ?k then _ else _) = _ =>
             destruct (String.eqb_spec n k) as [Hname|?];
             [injection Hfam as <-|]
         end; try discriminate Hfam.
  all: cbn [schema constructor compat selected_encoder] in *.
  all: unfold_script; unfold init.
  all: destruct (model_config args) as [path|] eqn:Hcfg; [|subst base]; guided.
  all: rewrite ?Hname; repeat split; reflexivity.
Qed.

Lemma successful_run_witness :
  parse_args Demo.world DemoVae.argv = inr DemoVae.args
  /\ stored Demo.world DemoVae.args "train_data.npz" = inr Demo.train
  /\ stored Demo.world DemoVae.args "eval_data.npz" = inr Demo.eval
  /\ (events Demo.world DemoVae.argv
  = [EvLog (LogLoading (dataset DemoVae.args));
     EvNpLoad (data_path Demo.world DemoVae.args "train_data.npz");
     EvNpLoad (data_path Demo.world DemoVae.args "eval_data.npz");
     EvLog LogLoaded; EvLog LogRule; EvLog LogDataHeader;
     EvLog (LogSplit (dataset DemoVae.args) "train" (shape Demo.train) DemoSuccess.lo DemoSuccess.hi);
     EvLog (LogSplit (dataset DemoVae.args) "eval" (shape Demo.eval) DemoSuccess.lo' DemoSuccess.hi');
     EvLog LogRule;
     match model_config DemoVae.args with
     | Some path => EvFromJsonFile (schema DemoSuccess.fam) path
     | None => EvDefaultConfig (schema DemoSuccess.fam)
     end;
     EvSetAttr 0 "input_dim" (VTuple (tail (shape Demo.train)));
     EvNewModule (selected_encoder DemoSuccess.mnist (compat DemoSuccess.fam)) 0
                 (<["input_dim" := VTuple (tail (shape Demo.train))]> DemoSuccess.base);
     EvNewModule (shared_decoder DemoSuccess.mnist) 0
                 (<["input_dim" := VTuple (tail (shape Demo.train))]> DemoSuccess.base);
     EvNewModel (constructor DemoSuccess.fam) 0
                (<["input_dim" := VTuple (tail (shape Demo.train))]> DemoSuccess.base) DemoVae.enc DemoVae.dec;
     EvLog (LogBuilt (model_name DemoVae.args));
     EvLog LogRule; EvLog LogParamHeader;
     EvLog (LogParams (model_name DemoVae.args)
                      (num_param (parameters DemoVae.enc))
                      (num_param (parameters DemoVae.dec))
                      (num_param (parameters DemoVae.enc ++ parameters DemoVae.dec ++ DemoSuccess.aux)));
     EvLog LogRule;
     EvTrainingConfig (training_config DemoVae.args);
     EvNewPipeline DemoVae.tc (AssembledModel (constructor DemoSuccess.fam) 0 DemoVae.enc DemoVae.dec DemoSuccess.aux);
     EvPipelineCall DemoVae.tc (AssembledModel (constructor DemoSuccess.fam) 0 DemoVae.enc DemoVae.dec DemoSuccess.aux)
                    (true_divide Demo.train 255) (true_divide Demo.eval 255)]
  /\ outcome Demo.world DemoVae.argv
     = pipeline_call Demo.world DemoVae.tc (AssembledModel (constructor DemoSuccess.fam) 0 DemoVae.enc DemoVae.dec DemoSuccess.aux)
                     (true_divide Demo.train 255) (true_divide Demo.eval 255)
  /\ heap (run Demo.world DemoVae.argv).1
     = {[ 0%nat := <["input_dim" := VTuple (tail (shape Demo.train))]> DemoSuccess.base ]}).
Proof.
  split; [reflexivity|]. split; [reflexivity|]. split; [reflexivity|].
  apply (successful_run Demo.world DemoVae.argv DemoVae.args DemoSuccess.fam
           DemoSuccess.mnist Demo.train Demo.eval DemoSuccess.lo DemoSuccess.hi
           DemoSuccess.lo' DemoSuccess.hi' DemoSuccess.base DemoVae.enc
           DemoVae.dec DemoSuccess.aux DemoVae.tc); reflexivity.
Defined.

(** ** The printed range *)

Lemma Qmin'_normalized (a b : Z) :
  Qmin' (normalized a) (normalized b) = normalized (Z.min a b).
Proof.
  unfold Qmin', normalized, Qle_bool, Qdiv, Qmult, Qinv, inject_Z. cbn.
  destruct (Z.leb_spec (a * 1 * Z.pos (1 * 255)) (b * 1 * Z.pos (1 * 255))).
  - by rewrite Z.min_l by lia.
  - by rewrite Z.min_r by lia.
Qed.

Lemma Qmax'_normalized (a b : Z) :
  Qmax' (normalized a) (normalized b) = normalized (Z.max a b).
Proof.
  unfold Qmax', normalized, Qle_bool, Qdiv, Qmult, Qinv, inject_Z. cbn.
  destruct (Z.leb_spec (a * 1 * Z.pos (1 * 255)) (b * 1 * Z.pos (1 * 255))).
  - by rewrite Z.max_r by lia.
  - by rewrite Z.max_l by lia.
Qed.

Lemma fold_min_normalized (xs : list Z) (a : Z) :
  fold_left Qmin' (map normalized xs) (normalized a)
  = normalized (fold_left Z.min xs a).
Proof.
  revert a. induction xs as [|x xs IH]; intros a; [reflexivity|].
  cbn [map fold_left]. by rewrite Qmin'_normalized, IH.
Qed.

Lemma fold_max_normalized (xs : list Z) (a : Z) :
  fold_left Qmax' (map normalized xs) (normalized a)
  = normalized (fold_left Z.max xs a).
Proof.
  revert a. induction xs as [|x xs IH]; intros a; [reflexivity|].
  cbn [map fold_left]. by rewrite Qmax'_normalized, IH.
Qed.

Lemma fold_min_least (xs : list Z) (a : Z) :
  fold_left Z.min xs a ∈ a :: xs
  /\ forall x, x ∈ a :: xs -> (fold_left Z.min xs a <= x)%Z.
Proof.
  revert a. induction xs as [|y xs IH]; intros a; cbn [fold_left].
  - split; [apply list_elem_of_here|]. intros x ->%list_elem_of_singleton. lia.
  - destruct (IH (Z.min a y)) as [Hin Hle]. split.
    + apply elem_of_cons in Hin as [Heq|Hin].
      * rewrite Heq. destruct (Z.min_spec a y) as [[_ ->]|[_ ->]].
        -- apply list_elem_of_here.
        -- apply list_elem_of_further, list_elem_of_here.
      * by do 2 apply list_elem_of_further.
    + intros x Hx.
      pose proof (Hle (Z.min a y) (list_elem_of_here _ _)) as Hm.
      apply elem_of_cons in Hx as [->|Hx]; [lia|].
      apply elem_of_cons in Hx as [->|Hx]; [lia|].
      apply Hle. by apply list_elem_of_further.
Qed.

Lemma fold_max_greatest (xs : list Z) (a : Z) :
  fold_left Z.max xs a ∈ a :: xs
  /\ forall x, x ∈ a :: xs -> (x <= fold_left Z.max xs a)%Z.
Proof.
  revert a. induction xs as [|y xs IH]; intros a; cbn [fold_left].
  - split; [apply list_elem_of_here|]. intros x ->%list_elem_of_singleton. lia.
  - destruct (IH (Z.max a y)) as [Hin Hle]. split.
    + apply elem_of_cons in Hin as [Heq|Hin].
      * rewrite Heq. destruct (Z.max_spec a y) as [[_ ->]|[_ ->]].
        -- apply list_elem_of_further, list_elem_of_here.
        -- apply list_elem_of_here.
      * by do 2 apply list_elem_of_further.
    + intros x Hx.
      pose proof (Hle (Z.max a y) (list_elem_of_here _ _)) as Hm.
      apply elem_of_cons in Hx as [->|Hx]; [lia|].
      apply elem_of_cons in Hx as [->|Hx]; [lia|].
      apply Hle. by apply list_elem_of_further.
Qed.

(** The minimum and the maximum of a normalized array are the quotients of
    the least and the greatest stored sample. *)
Lemma array_range (raw : ndarray Z) (lo hi : Q) :
  array_min (true_divide raw 255) = inr lo ->
  array_max (true_divide raw 255) = inr hi ->
  exists x_lo x_hi,
    x_lo ∈ flat raw /\ x_hi ∈ flat raw /\
    lo = normalized x_lo /\ hi = normalized x_hi /\
    forall x, x ∈ flat raw -> (x_lo <= x <= x_hi)%Z.
Proof.
  unfold array_min, array_max, true_divide. cbn [flat].
  destruct (flat raw) as [|a xs]; [discriminate|]. cbn [map].
  change (fun x => (inject_Z x / 255)%Q) with normalized.
  change (inject_Z a / 255)%Q with (normalized a).
  rewrite fold_min_normalized, fold_max_normalized.
  intros [= <-] [= <-].
  destruct (fold_min_least xs a) as [Hlo Hle].
  destruct (fold_max_greatest xs a) as [Hhi Hge].
  exists (fold_left Z.min xs a), (fold_left Z.max xs a).
  repeat split; auto.
Qed.

Lemma normalized_nonneg (x : Z) : (0 <= normalized x)%Q <-> (0 <= x)%Z.
Proof. unfold normalized, Qle, Qdiv, Qmult, Qinv, inject_Z. cbn. lia. Qed.

Lemma normalized_le_1 (x : Z) : (normalized x <= 1)%Q <-> (x <= 255)%Z.
Proof. unfold normalized, Qle, Qdiv, Qmult, Qinv, inject_Z. cbn. lia. Qed.

(** X12: the range printed for a split is attained: its two ends are the
    least and the greatest stored sample of that split, each divided by
    255.  So the printed range lies within [0, 1] exactly when every stored
    sample lies within [0, 255]. *)
Theorem printed_range (w : World) (argv : list (option_string * string))
    (ds split : string) (sh : list Z) (lo hi : Q) :
  EvLog (LogSplit ds split sh lo hi) ∈ events w argv ->
  exists args raw x_lo x_hi,
    parse_args w argv = inr args /\
    stored w args (split ++ "_data.npz") = inr raw /\
    sh = shape raw /\
    x_lo ∈ flat raw /\ x_hi ∈ flat raw /\
    lo = (inject_Z x_lo / 255)%Q /\ hi = (inject_Z x_hi / 255)%Q /\
    (forall x, x ∈ flat raw -> (x_lo <= x <= x_hi)%Z) /\
    ((0 <= lo)%Q /\ (hi <= 1)%Q <->
     forall x, x ∈ flat raw -> (0 <= x <= 255)%Z).
Proof.
  intros Hin.
  destruct (event_parsed _ _ _ Hin)
    as (args & Hp & _ & raw & Hraw & -> & Hlo & Hhi).
  destruct (array_range raw lo hi Hlo Hhi)
    as (x_lo & x_hi & Hin_lo & Hin_hi & -> & -> & Hall).
  exists args, raw, x_lo, x_hi.
  split; [exact Hp|]. split; [exact Hraw|]. split; [reflexivity|].
  split; [exact Hin_lo|]. split; [exact Hin_hi|].
  split; [reflexivity|]. split; [reflexivity|]. split; [exact Hall|].
  fold (normalized x_lo). fold (normalized x_hi).
  rewrite normalized_nonneg, normalized_le_1. split.
  - intros [Hge Hle] x Hx. destruct (Hall x Hx). lia.
  - intros Hrange. destruct (Hrange _ Hin_lo), (Hrange _ Hin_hi). lia.
Qed.

Lemma printed_range_witness :
  EvLog (LogSplit "mnist" "eval" [1; 3; 1; 1]%Z DemoSuccess.lo' DemoSuccess.hi')
    ∈ events Demo.world DemoVae.argv
  /\ exists args raw x_lo x_hi,
    parse_args Demo.world DemoVae.argv = inr args /\
    stored Demo.world args ("eval" ++ "_data.npz") = inr raw /\
    [1; 3; 1; 1]%Z = shape raw /\
    x_lo ∈ flat raw /\ x_hi ∈ flat raw /\
    DemoSuccess.lo' = (inject_Z x_lo / 255)%Q /\
    DemoSuccess.hi' = (inject_Z x_hi / 255)%Q /\
    (forall x, x ∈ flat raw -> (x_lo <= x <= x_hi)%Z) /\
    ((0 <= DemoSuccess.lo')%Q /\ (DemoSuccess.hi' <= 1)%Q <->
     forall x, x ∈ flat raw -> (0 <= x <= 255)%Z).
Proof.
  assert (EvLog (LogSplit "mnist" "eval" [1; 3; 1; 1]%Z DemoSuccess.lo'
                   DemoSuccess.hi') ∈ events Demo.world DemoVae.argv) as Hin.
  { apply list_elem_of_lookup. exists 7%nat. vm_compute. reflexivity. }
  split; [exact Hin|].
  exact (printed_range Demo.world DemoVae.argv _ _ _ _ _ Hin).
Defined.

(** ** A file without the key *)


